(** * verify_pr_lables.py: a shallow embedding and its checked properties

    The script [src/verify_pr_lables.py] is a straight-line GitHub Actions
    check: it validates its command line and environment, resolves a
    pull-request number, fetches the pull request through PyGithub and
    decides from the labels whether the check passes.

    The embedding follows the script statement by statement.

    - Python [str] values are Rocq [string]s whose characters stand for the
      code points U+0000..U+00FF; the [str] methods the script calls
      ([strip], [split], [lower], [in], [int], [re.search]) are written out
      for that range in [Module Py].
    - The process is a writer/error monad [Run]: the trace records what is
      printed and which API calls are made, the outcome says whether the
      code fell through, called [sys.exit] or died on an uncaught exception.
    - [os.environ] is a finite map, [sys.argv] a list, PyGithub a record of
      responses supplied by the caller.

    Not modelled: the [import] statements (the interpreter is assumed to
    provide [distutils] and [github]). The limit on the length of the
    decimal strings [int] accepts is the interpreter's default, 4300
    digits. *)

From Stdlib Require Import ZArith NArith Ascii String.
From stdpp Require Import base option list strings gmap.

Local Open Scope string_scope.
Local Open Scope list_scope.
Local Open Scope Z_scope.

(** ** Python string primitives *)

Module Py.

(** Code point of a character. *)
Definition ord (c : ascii) : N := N_of_ascii c.

Definition between (lo hi n : N) : bool := ((lo <=? n) && (n <=? hi))%N.

(** [str.isspace] on one character: the white space recognised by
    [str.strip()] and [str.split()]. *)
Definition isspace (c : ascii) : bool :=
  let n := ord c in
  between 9 13 n || between 28 32 n || (n =? 133)%N || (n =? 160)%N.

(** White space skipped by [int(str)]: the same set without U+001C..U+001F. *)
Definition int_space (c : ascii) : bool :=
  let n := ord c in
  between 9 13 n || (n =? 32)%N || (n =? 133)%N || (n =? 160)%N.

(** [0-9], both for the regular expression and for [int]. *)
Definition isdigit (c : ascii) : bool := between 48 57 (ord c).

Definition digit_value (c : ascii) : Z := Z.of_N (ord c) - 48.

(** [str.lower] on one character. *)
Definition lower_char (c : ascii) : ascii :=
  let n := ord c in
  if between 65 90 n || (between 192 222 n && negb (n =? 215)%N)
  then ascii_of_N (n + 32)
  else c.

(** [s.lower()] *)
Fixpoint lower (s : string) : string :=
  match s with
  | EmptyString => EmptyString
  | String c r => String (lower_char c) (lower r)
  end.

Definition is_empty (s : string) : bool :=
  match s with EmptyString => true | String _ _ => false end.

Fixpoint lstrip_with (sp : ascii -> bool) (s : string) : string :=
  match s with
  | EmptyString => EmptyString
  | String c r => if sp c then lstrip_with sp r else s
  end.

Fixpoint rstrip_with (sp : ascii -> bool) (s : string) : string :=
  match s with
  | EmptyString => EmptyString
  | String c r =>
      let r' := rstrip_with sp r in
      if sp c && is_empty r' then EmptyString else String c r'
  end.

(** [s.strip()] *)
Definition strip (s : string) : string :=
  rstrip_with isspace (lstrip_with isspace s).

(** [s.split(sep)] for a one-character separator: never the empty list. *)
Fixpoint split_on (sep : ascii) (s : string) : list string :=
  match s with
  | EmptyString => [EmptyString]
  | String c r =>
      if Ascii.eqb c sep then EmptyString :: split_on sep r
      else match split_on sep r with
           | w :: ws => String c w :: ws
           | [] => [String c EmptyString]
           end
  end.

(** [s.split()]: the maximal runs of characters that are not white space. *)
Fixpoint split (s : string) : list string :=
  match s with
  | EmptyString => []
  | String c r =>
      if isspace c then split r
      else match r with
           | EmptyString => [String c EmptyString]
           | String c' _ =>
               if isspace c' then String c EmptyString :: split r
               else match split r with
                    | w :: ws => String c w :: ws
                    | [] => [String c EmptyString]
                    end
           end
  end.

(** [p] is a prefix of [s]; on success the rest of [s]. *)
Fixpoint strip_prefix (p s : string) : option string :=
  match p, s with
  | EmptyString, _ => Some s
  | String a p', String b s' =>
      if Ascii.eqb a b then strip_prefix p' s' else None
  | String _ _, EmptyString => None
  end.

Definition startswith (s p : string) : bool :=
  match strip_prefix p s with Some _ => true | None => false end.

(** [needle in hay] *)
Fixpoint contains (needle hay : string) : bool :=
  startswith hay needle ||
  match hay with
  | EmptyString => false
  | String _ r => contains needle r
  end.

(** The digits of an [int] literal after the sign: decimal digits with
    single underscores allowed between two digits. [after_digit] tells
    whether the previous character was a digit. *)
Fixpoint int_digits (acc : Z) (after_digit : bool) (s : string) : option Z :=
  match s with
  | EmptyString => if after_digit then Some acc else None
  | String c r =>
      if isdigit c then int_digits (10 * acc + digit_value c) true r
      else if Ascii.eqb c "_" && after_digit then int_digits acc false r
      else None
  end.

(** The default of [sys.get_int_max_str_digits()]: [int] refuses a string
    with more decimal digits than this, leading zeros included. *)
Definition int_max_str_digits : nat := 4300.

Fixpoint count_digits (s : string) : nat :=
  match s with
  | EmptyString => 0%nat
  | String c r => ((if isdigit c then 1 else 0) + count_digits r)%nat
  end.

(** The digits of [int(s)] after white space and sign are taken off: too
    many digits and a malformed literal are both a [ValueError]. *)
Definition int_body (s : string) : option Z :=
  if Nat.leb (count_digits s) int_max_str_digits
  then int_digits 0 false s
  else None.

(** [int(s)]: [None] stands for [ValueError]. *)
Definition int (s : string) : option Z :=
  let t := rstrip_with int_space (lstrip_with int_space s) in
  match t with
  | String "+" r => int_body r
  | String "-" r => Z.opp <$> int_body r
  | _ => int_body t
  end.

(** The longest run of [0-9] at the front of [s], and what follows it. *)
Fixpoint span_digits (s : string) : string * string :=
  match s with
  | EmptyString => (EmptyString, EmptyString)
  | String c r =>
      if isdigit c then let '(d, rest) := span_digits r in (String c d, rest)
      else (EmptyString, s)
  end.

(** [re.match('refs/pull/([0-9]+)/merge', s)]: group 1 of a match that
    starts at the first character of [s]. The digit run is greedy; giving
    digits back never helps, since what must follow is not a digit. *)
Definition match_pull_ref (s : string) : option string :=
  match strip_prefix "refs/pull/" s with
  | None => None
  | Some r =>
      let '(d, rest) := span_digits r in
      if is_empty d then None
      else if startswith rest "/merge" then Some d else None
  end.

(** [re.search('refs/pull/([0-9]+)/merge', s)]: group 1 of the leftmost
    match, [None] when the pattern matches nowhere. *)
Fixpoint search_pull_ref (s : string) : option string :=
  match match_pull_ref s with
  | Some d => Some d
  | None =>
      match s with
      | EmptyString => None
      | String _ r => search_pull_ref r
      end
  end.

End Py.

(** ** The process: output, API calls, exits and exceptions *)

Inductive stream := Stdout | Stderr.

(** One piece of a printed line: literal text (or a [str] interpolated by
    an f-string), an [int], or a list of [str] printed through its [repr]. *)
Inductive fragment :=
| Text (s : string)
| Num (n : Z)
| ReprList (l : list string).

Inductive event :=
| Print (out : stream) (line : list fragment)
| ApiGetRepo (token full_name : string)
| ApiGetPull (number : Z)
| ApiGetLabels.

Inductive exn := AttributeError | ValueError | IndexError | GithubException.

Inductive result (A : Type) :=
| Returns (a : A)
| Exits (code : Z)
| Raises (e : exn).
Arguments Returns {A} a.
Arguments Exits {A} code.
Arguments Raises {A} e.

Record Run (A : Type) := MkRun { trace : list event; outcome : result A }.
Arguments MkRun {A} trace outcome.
Arguments trace {A} r.
Arguments outcome {A} r.

#[global] Instance exn_eq_dec : EqDecision exn.
Proof. solve_decision. Defined.

#[global] Instance stream_eq_dec : EqDecision stream.
Proof. solve_decision. Defined.

#[global] Instance Run_ret : MRet Run := fun A a => MkRun [] (Returns a).

#[global] Instance Run_bind : MBind Run := fun A B f m =>
  match outcome m with
  | Returns a => MkRun (trace m ++ trace (f a)) (outcome (f a))
  | Exits c => MkRun (trace m) (Exits c)
  | Raises e => MkRun (trace m) (Raises e)
  end.

Definition emit (e : event) : Run unit := MkRun [e] (Returns tt).

(** [print(..., file=out)] *)
Definition print (out : stream) (line : list fragment) : Run unit :=
  emit (Print out line).

(** [sys.exit(code)] *)
Definition sys_exit {A} (code : Z) : Run A := MkRun [] (Exits code).

Definition raise {A} (e : exn) : Run A := MkRun [] (Raises e).

(** A value or the exception raised instead of it. *)
Definition lift {A} (r : exn + A) : Run A :=
  match r with
  | inl e => raise e
  | inr a => mret a
  end.

(** [try: body  except e: handler] *)
Definition try_except {A} (body : Run A) (e : exn) (handler : Run A) : Run A :=
  match outcome body with
  | Raises e' =>
      if decide (e' = e)
      then MkRun (trace body ++ trace handler) (outcome handler)
      else body
  | _ => body
  end.

(** What the shell sees when the interpreter stops: the argument of
    [sys.exit], 0 when the script runs off its end, 1 after the traceback
    of an uncaught exception. *)
Definition exit_status {A} (r : Run A) : Z :=
  match outcome r with
  | Returns _ => 0
  | Exits c => c
  | Raises _ => 1
  end.

Definition is_api_call (e : event) : bool :=
  match e with
  | Print _ _ => false
  | _ => true
  end.

Definition is_stderr (e : event) : bool :=
  match e with
  | Print Stderr _ => true
  | _ => false
  end.

(** ** PyGithub, as far as the script uses it *)

Record Label := { name : string }.

(** A pull request as fetched: the full names of [pr.head.repo] and
    [pr.base.repo] (both repositories are taken to exist) and the answer to
    [pr.get_labels()]. *)
Record PullRequest := {
  head_repo_full_name : string;
  base_repo_full_name : string;
  get_labels : exn + list Label
}.

Record Repository := { get_pull : Z -> exn + PullRequest }.

(** [Github(token).get_repo(full_name)] *)
Record Github := { get_repo : string -> string -> exn + Repository }.

(** The two kinds of object bound to the loop variable [label]: a PyGithub
    [Label] in the loop over [pr_labels], a [str] in the loops over
    [pr_valid_labels]. *)
Inductive pyobj :=
| PyLabel (l : Label)
| PyStr (s : string).

(** [obj.name]: a [str] has no such attribute. *)
Definition attr_name (obj : pyobj) : exn + string :=
  match obj with
  | PyLabel l => inr (name l)
  | PyStr _ => inl AttributeError
  end.

(** [seq[i]] for [i >= 0] *)
Definition getitem {A} (seq : list A) (i : nat) : Run A :=
  match seq !! i with
  | Some a => mret a
  | None => raise IndexError
  end.

(** [seq[-1]] *)
Definition getitem_last {A} (seq : list A) : Run A :=
  match last seq with
  | Some a => mret a
  | None => raise IndexError
  end.

(** [x in seq] for a list of [str] *)
Definition str_in (x : string) (seq : list string) : bool :=
  bool_decide (x ∈ seq).

(** Truth value of a list: non-empty. *)
Definition truthy {A} (seq : list A) : bool :=
  match seq with [] => false | _ :: _ => true end.

Definition dquote : string := String "034"%char EmptyString.

(** ** The script *)

(** Lines 10-39. *)
Definition get_env_var (environ : gmap string string)
    (env_var_name : string) (echo_value : bool) : Run string :=
  match environ !! env_var_name with
  | None =>
      print Stderr [Text "ERROR: The environmental variable ";
                    Text env_var_name; Text " is empty!"];;
      sys_exit 1
  | Some value =>
      (if echo_value
       then print Stdout [Text env_var_name; Text " = "; Text value]
       else mret tt);;
      mret value
  end.

(** What lines 42-67 leave in the global variables. *)
Record Inputs := {
  token : string;
  valid_labels : list string;
  invalid_labels : list string;
  pr_number_str : string;
  repo_name : string;
  github_ref : string;
  github_event_name : string
}.

(** Lines 42-67: command line and environment. *)
Definition input_resolver (argv : list string)
    (environ : gmap string string) : Run Inputs :=
  (if negb (Nat.eqb (length argv) 6)
   then print Stderr [Text "ERROR: Invalid number of arguments!"];;
        sys_exit 1
   else mret tt);;
  token ← getitem argv 1;
  (if Py.is_empty token
   then print Stderr [Text "ERROR: A token must be provided!"];;
        sys_exit 1
   else mret tt);;
  arg2 ← getitem argv 2;
  let valid_labels := Py.strip <$> Py.split_on "," arg2 in
  print Stdout [Text "Valid labels are: "; ReprList valid_labels];;
  arg3 ← getitem argv 3;
  let invalid_labels := Py.strip <$> Py.split_on "," arg3 in
  print Stdout [Text "Invalid labels are: "; ReprList invalid_labels];;
  pr_number_str ← getitem argv 4;
  repo_name ← get_env_var environ "GITHUB_REPOSITORY" false;
  github_ref ← get_env_var environ "GITHUB_REF" false;
  github_event_name ← get_env_var environ "GITHUB_EVENT_NAME" false;
  mret {| token := token;
          valid_labels := valid_labels;
          invalid_labels := invalid_labels;
          pr_number_str := pr_number_str;
          repo_name := repo_name;
          github_ref := github_ref;
          github_event_name := github_event_name |}.

(** [int(s)] as a statement. *)
Definition int_of_str (s : string) : Run Z :=
  match Py.int s with
  | Some n => mret n
  | None => raise ValueError
  end.

(** [re.search(...).group(1)]: [None] has no attribute [group]. *)
Definition search_group1 (s : string) : Run string :=
  match Py.search_pull_ref s with
  | Some d => mret d
  | None => raise AttributeError
  end.

(** Lines 76-94: the pull-request number. The message of line 81 is not an
    f-string, so its braces are printed as they are. *)
Definition resolve_pr_number (i : Inputs) : Run Z :=
  if String.eqb (github_event_name i) "pull_request_target"
  then
    try_except (int_of_str (pr_number_str i)) ValueError
      (print Stderr
         [Text ("ERROR: A valid pull request number input must be defined when "
                +:+ "triggering on " +:+ dquote +:+ "pull_request_target" +:+ dquote
                +:+ ". The pull request number "
                +:+ "passed was " +:+ dquote +:+ "{pr_number_str}" +:+ dquote +:+ ".")];;
       sys_exit 1)
  else
    try_except (d ← search_group1 (github_ref i); int_of_str d) AttributeError
      (print Stderr
         [Text "ERROR: The pull request number could not be extracted from ";
          Text ("GITHUB_REF = " +:+ dquote); Text (github_ref i); Text dquote];;
       sys_exit 1).

(** Lines 69-99: repository, number, pull request. *)
Definition pull_request_locator (gh : Github) (i : Inputs) : Run PullRequest :=
  emit (ApiGetRepo (token i) (repo_name i));;
  repo ← lift (get_repo gh (token i) (repo_name i));
  pr_number ← resolve_pr_number i;
  print Stdout [Text "Pull request number: "; Num pr_number];;
  emit (ApiGetPull pr_number);;
  lift (get_pull repo pr_number).

(** Lines 101-107: pull requests from forks. *)
Definition fork_check (i : Inputs) (pr : PullRequest) : Run unit :=
  if negb (String.eqb (head_repo_full_name pr) (base_repo_full_name pr))
  then
    if negb (String.eqb (github_event_name i) "pull_request_target")
    then
      print Stderr
        [Text ("ERROR: PRs from forks are only supported when trigger on "
               +:+ dquote +:+ "pull_request_target" +:+ dquote)];;
      sys_exit 1
    else mret tt
  else mret tt.

(** Lines 112-124: one pass over the labels of the pull request, appending
    each name to the list it belongs to. *)
Definition classify_step (i : Inputs) (acc : list string * list string)
    (label : Label) : list string * list string :=
  let '(pr_valid_labels, pr_invalid_labels) := acc in
  let pr_valid_labels :=
    if str_in (name label) (valid_labels i)
    then pr_valid_labels ++ [name label] else pr_valid_labels in
  let pr_invalid_labels :=
    if str_in (name label) (invalid_labels i)
    then pr_invalid_labels ++ [name label] else pr_invalid_labels in
  (pr_valid_labels, pr_invalid_labels).

Definition classify (i : Inputs) (pr_labels : list Label)
  : list string * list string :=
  fold_left (classify_step i) pr_labels ([], []).

(** Lines 153-157: the loop variable is a [str] taken from
    [pr_valid_labels]; the condition reads its attribute [name]. *)
Fixpoint parity_loop (pr_valid_labels : list string)
    (todo : list string) (parity_label_conflict : bool) : Run bool :=
  match todo with
  | [] => mret parity_label_conflict
  | label :: rest =>
      label_name ← lift (attr_name (PyStr label));
      if Py.contains "no parity" (Py.lower label_name)
      then parity_loop pr_valid_labels rest
             (Nat.ltb 1 (length pr_valid_labels))
      else parity_loop pr_valid_labels rest parity_label_conflict
  end.

(** Lines 166-170. *)
Fixpoint forbidden_loop (i : Inputs) (todo : list string)
    (forbidden_label : string) : Run string :=
  match todo with
  | [] => mret forbidden_label
  | label :: rest =>
      last_word ← getitem_last (Py.split label);
      if Py.contains (Py.lower last_word) (Py.lower (repo_name i))
      then forbidden_loop i rest label
      else forbidden_loop i rest forbidden_label
  end.

Definition exiting_with_error : Run unit :=
  print Stdout [Text "Exiting with an error code"];;
  sys_exit 1.

(** Lines 135-188, given the two lists. *)
Definition decide_labels (i : Inputs)
    (pr_valid_labels pr_invalid_labels : list string) : Run unit :=
  (if truthy pr_invalid_labels
   then
     print Stderr
       [Text "Error! This pull request contains the following invalid labels: ";
        ReprList pr_invalid_labels];;
     exiting_with_error
   else
     print Stdout [Text "This pull request does not contain invalid labels"]);;
  if negb (truthy pr_valid_labels)
  then
    print Stderr
      [Text "Error! This pull request must contain at least one of these labels: ";
       ReprList (valid_labels i)];;
    exiting_with_error
  else
    parity_label_conflict ← parity_loop pr_valid_labels pr_valid_labels false;
    (if parity_label_conflict : bool
     then
       print Stderr
         [Text ("Error! A " +:+ dquote +:+ "no parity" +:+ dquote
                +:+ " label cannot accompany other parity labels: ");
          ReprList pr_valid_labels];;
       exiting_with_error
     else
       forbidden_label ← forbidden_loop i pr_valid_labels "";
       if negb (String.eqb forbidden_label "")
       then
         print Stderr
           [Text "Error! Label is not allowed to target this repo: ";
            Text forbidden_label];;
         exiting_with_error
       else
         print Stdout
           [Text "This pull request contains the following valid labels: ";
            ReprList pr_valid_labels]);;
    if negb (truthy pr_invalid_labels) && truthy pr_valid_labels
    then
      print Stdout [Text "All labels are OK in this pull request"];;
      print Stdout [Text "Exiting without an error code"];;
      sys_exit 0
    else mret tt.

(** Lines 109-188: label evaluation. *)
Definition label_classifier (i : Inputs) (pr : PullRequest) : Run unit :=
  emit ApiGetLabels;;
  pr_labels ← lift (get_labels pr);
  let '(pr_valid_labels, pr_invalid_labels) := classify i pr_labels in
  decide_labels i pr_valid_labels pr_invalid_labels.

(** Lines 42-107: everything before the labels are looked at. *)
Definition prologue (argv : list string) (environ : gmap string string)
    (gh : Github) : Run (Inputs * PullRequest) :=
  i ← input_resolver argv environ;
  pr ← pull_request_locator gh i;
  fork_check i pr;;
  mret (i, pr).

(** The whole script. *)
Definition main (argv : list string) (environ : gmap string string)
    (gh : Github) : Run unit :=
  '(i, pr) ← prologue argv environ gh;
  label_classifier i pr.

(** A run reaches label evaluation when the prologue returns and the
    labels of the pull request can be listed. *)
Definition reaches_label_evaluation (argv : list string)
    (environ : gmap string string) (gh : Github)
    (before : list event) (i : Inputs) (pr_labels : list Label) : Prop :=
  ∃ pr, prologue argv environ gh = MkRun before (Returns (i, pr))
        ∧ get_labels pr = inr pr_labels.

(** The labels of the pull request that are in [wanted], in the order of
    the pull request. *)
Definition found_in (wanted : list string) (pr_labels : list Label)
  : list string :=
  filter (λ n, n ∈ wanted) (name <$> pr_labels).

(** A test double for PyGithub: one repository with one pull request. *)
Definition single_pull (head base : string) (labels : list string)
  : PullRequest :=
  {| head_repo_full_name := head;
     base_repo_full_name := base;
     get_labels := inr (Build_Label <$> labels) |}.

Definition single_repo (number : Z) (head base : string)
    (labels : list string) : Repository :=
  {| get_pull := λ n,
       if Z.eqb n number then inr (single_pull head base labels)
       else inl GithubException |}.

Definition single_pr (full_name : string) (number : Z) (head base : string)
    (labels : list string) : Github :=
  {| get_repo := λ _ repo,
       if String.eqb repo full_name
       then inr (single_repo number head base labels)
       else inl GithubException |}.

Definition actions_env (repo ref event_name : string) : gmap string string :=
  <["GITHUB_REPOSITORY" := repo]>
    (<["GITHUB_REF" := ref]> (<["GITHUB_EVENT_NAME" := event_name]> ∅)).

(** ** Vocabulary of the properties *)

(** The environment variables read by lines 65-67. *)
Definition required_env_vars : list string :=
  ["GITHUB_REPOSITORY"; "GITHUB_REF"; "GITHUB_EVENT_NAME"].

Fixpoint all_digits (s : string) : bool :=
  match s with
  | EmptyString => true
  | String c r => Py.isdigit c && all_digits r
  end.

(** Value of a string of decimal digits, most significant first. *)
Fixpoint decimal_from (acc : Z) (s : string) : Z :=
  match s with
  | EmptyString => acc
  | String c r => decimal_from (10 * acc + Py.digit_value c) r
  end.

Definition decimal (s : string) : Z := decimal_from 0 s.

(** [s] holds [refs/pull/<digits>/merge] with [d] for the digits. *)
Definition pull_ref_occurs (s d : string) : Prop :=
  ∃ pre post,
    s = pre +:+ "refs/pull/" +:+ d +:+ "/merge" +:+ post
    ∧ d ≠ "" ∧ all_digits d = true.

(** Some valid label found on the pull request holds "no parity", in any
    letter case, and it is not the only valid label found. *)
Definition no_parity_conflict (pr_valid_labels : list string) : Prop :=
  (∃ label, label ∈ pr_valid_labels
            ∧ Py.contains "no parity" (Py.lower label) = true)
  ∧ (1 < length pr_valid_labels)%nat.

(** The last word of the label, lowercased, occurs in the lowercased full
    name of the repository. *)
Definition self_referential (repo_name label : string) : Prop :=
  ∃ last_word, last (Py.split label) = Some last_word
    ∧ Py.contains (Py.lower last_word) (Py.lower repo_name) = true.

(** The lines the label rules print. *)
Definition invalid_report (pr_invalid_labels : list string) : event :=
  Print Stderr
    [Text "Error! This pull request contains the following invalid labels: ";
     ReprList pr_invalid_labels].

Definition missing_report (valid_labels : list string) : event :=
  Print Stderr
    [Text "Error! This pull request must contain at least one of these labels: ";
     ReprList valid_labels].

Definition conflict_report (pr_valid_labels : list string) : event :=
  Print Stderr
    [Text ("Error! A " +:+ dquote +:+ "no parity" +:+ dquote
           +:+ " label cannot accompany other parity labels: ");
     ReprList pr_valid_labels].

Definition no_invalid_note : event :=
  Print Stdout [Text "This pull request does not contain invalid labels"].

Definition exiting_note : event :=
  Print Stdout [Text "Exiting with an error code"].

Definition confirmation : list event :=
  [Print Stdout [Text "All labels are OK in this pull request"];
   Print Stdout [Text "Exiting without an error code"]].

Definition fork_report : event :=
  Print Stderr
    [Text ("ERROR: PRs from forks are only supported when trigger on "
           +:+ dquote +:+ "pull_request_target" +:+ dquote)].

Definition bad_number_report : event :=
  Print Stderr
    [Text ("ERROR: A valid pull request number input must be defined when "
           +:+ "triggering on " +:+ dquote +:+ "pull_request_target" +:+ dquote
           +:+ ". The pull request number "
           +:+ "passed was " +:+ dquote +:+ "{pr_number_str}" +:+ dquote +:+ ".")].

Definition no_ref_report (github_ref : string) : event :=
  Print Stderr
    [Text "ERROR: The pull request number could not be extracted from ";
     Text ("GITHUB_REF = " +:+ dquote); Text github_ref; Text dquote].

(** The two lines printed by a run that gets through lines 42-67. *)
Definition echoed (i : Inputs) : list event :=
  [Print Stdout [Text "Valid labels are: "; ReprList (valid_labels i)];
   Print Stdout [Text "Invalid labels are: "; ReprList (invalid_labels i)]].

(** The calls and the line by which a run shows the number it resolved. *)
Definition number_resolved (i : Inputs) (n : Z) : list event :=
  [ApiGetRepo (token i) (repo_name i);
   Print Stdout [Text "Pull request number: "; Num n];
   ApiGetPull n].

(** The run prints the conflict line of rule 3, for some list of labels. *)
Definition reports_conflict {A} (r : Run A) : Prop :=
  ∃ pr_valid_labels, conflict_report pr_valid_labels ∈ trace r.

(** The lines the script printed on the error stream (the traceback the
    interpreter adds after an uncaught exception is not in the trace). *)
Definition stderr_lines {A} (r : Run A) : list event :=
  filter (λ e, is_stderr e = true) (trace r).

(** A run that calls [sys.exit] passes it 1. *)
Definition exits_with_1 {A} (m : Run A) : Prop :=
  match outcome m with
  | Exits c => c = 1
  | _ => True
  end.

(** ** The script as a decision list

    A second description of the script, flat and without the monad: every
    way a run can end, with the trace it leaves. [main_is_table] compares it
    with [main]. *)

Definition argc_error : event :=
  Print Stderr [Text "ERROR: Invalid number of arguments!"].

Definition token_error : event :=
  Print Stderr [Text "ERROR: A token must be provided!"].

Definition env_error (env_var_name : string) : event :=
  Print Stderr [Text "ERROR: The environmental variable ";
                Text env_var_name; Text " is empty!"].

(** The list a comma-separated argument stands for (lines 54 and 58). *)
Definition parse_labels (arg : string) : list string :=
  Py.strip <$> Py.split_on "," arg.

Definition echo_lines (arg2 arg3 : string) : list event :=
  [Print Stdout [Text "Valid labels are: "; ReprList (parse_labels arg2)];
   Print Stdout [Text "Invalid labels are: "; ReprList (parse_labels arg3)]].

Definition input_table (argv : list string) (environ : gmap string string)
  : Run Inputs :=
  match argv with
  | [_; tok; arg2; arg3; arg4; _] =>
      if Py.is_empty tok then MkRun [token_error] (Exits 1)
      else
        match environ !! "GITHUB_REPOSITORY" with
        | None =>
            MkRun (echo_lines arg2 arg3 ++ [env_error "GITHUB_REPOSITORY"])
              (Exits 1)
        | Some rn =>
            match environ !! "GITHUB_REF" with
            | None =>
                MkRun (echo_lines arg2 arg3 ++ [env_error "GITHUB_REF"])
                  (Exits 1)
            | Some rf =>
                match environ !! "GITHUB_EVENT_NAME" with
                | None =>
                    MkRun (echo_lines arg2 arg3
                           ++ [env_error "GITHUB_EVENT_NAME"]) (Exits 1)
                | Some ev =>
                    MkRun (echo_lines arg2 arg3)
                      (Returns {| token := tok;
                                  valid_labels := parse_labels arg2;
                                  invalid_labels := parse_labels arg3;
                                  pr_number_str := arg4;
                                  repo_name := rn;
                                  github_ref := rf;
                                  github_event_name := ev |})
                end
            end
        end
  | _ => MkRun [argc_error] (Exits 1)
  end.

(** The number lines 76-94 arrive at, if any. *)
Definition pr_number_of (i : Inputs) : option Z :=
  if String.eqb (github_event_name i) "pull_request_target"
  then Py.int (pr_number_str i)
  else
    match Py.search_pull_ref (github_ref i) with
    | Some d => Py.int d
    | None => None
    end.

(** How they end when there is none: the error line and [sys.exit(1)] of
    lines 81-85 or 92-94, or, for digits in GITHUB_REF that [int] refuses,
    the ValueError that line 91 does not catch. *)
Definition number_failure {A} (i : Inputs) : Run A :=
  if String.eqb (github_event_name i) "pull_request_target"
  then MkRun [bad_number_report] (Exits 1)
  else
    match Py.search_pull_ref (github_ref i) with
    | Some _ => MkRun [] (Raises ValueError)
    | None => MkRun [no_ref_report (github_ref i)] (Exits 1)
    end.

Definition is_fork (pr : PullRequest) : bool :=
  negb (String.eqb (head_repo_full_name pr) (base_repo_full_name pr)).

Definition label_table (i : Inputs) (pr_labels : list Label) : Run unit :=
  let pr_valid_labels := found_in (valid_labels i) pr_labels in
  let pr_invalid_labels := found_in (invalid_labels i) pr_labels in
  if truthy pr_invalid_labels
  then MkRun [invalid_report pr_invalid_labels; exiting_note] (Exits 1)
  else if truthy pr_valid_labels
  then MkRun [no_invalid_note] (Raises AttributeError)
  else MkRun [no_invalid_note; missing_report (valid_labels i); exiting_note]
         (Exits 1).

Definition script_table (gh : Github) (i : Inputs) : Run unit :=
  let asked := ApiGetRepo (token i) (repo_name i) in
  match get_repo gh (token i) (repo_name i) with
  | inl e => MkRun [asked] (Raises e)
  | inr repo =>
      match pr_number_of i with
      | None =>
          MkRun (asked :: trace (number_failure (A := unit) i))
            (outcome (number_failure i))
      | Some n =>
          match get_pull repo n with
          | inl e => MkRun (number_resolved i n) (Raises e)
          | inr pr =>
              if is_fork pr
                 && negb (String.eqb (github_event_name i) "pull_request_target")
              then MkRun (number_resolved i n ++ [fork_report]) (Exits 1)
              else
                match get_labels pr with
                | inl e =>
                    MkRun (number_resolved i n ++ [ApiGetLabels]) (Raises e)
                | inr pr_labels =>
                    MkRun (number_resolved i n ++ ApiGetLabels
                             :: trace (label_table i pr_labels))
                      (outcome (label_table i pr_labels))
                end
          end
      end
  end.

Definition run_table (argv : list string) (environ : gmap string string)
    (gh : Github) : Run unit :=
  input_table argv environ ≫= script_table gh.

(** ** More vocabulary *)

Definition forbidden_report (forbidden_label : string) : event :=
  Print Stderr [Text "Error! Label is not allowed to target this repo: ";
                Text forbidden_label].

Definition valid_note (pr_valid_labels : list string) : event :=
  Print Stdout [Text "This pull request contains the following valid labels: ";
                ReprList pr_valid_labels].

(** The texts that open the lines of 160, 173, 179, 185 and 187. *)
Definition late_texts : list string :=
  ["Error! A " +:+ dquote +:+ "no parity" +:+ dquote
     +:+ " label cannot accompany other parity labels: ";
   "Error! Label is not allowed to target this repo: ";
   "This pull request contains the following valid labels: ";
   "All labels are OK in this pull request";
   "Exiting without an error code"].

Definition is_late_line (e : event) : bool :=
  match e with
  | Print _ (Text s :: _) => bool_decide (s ∈ late_texts)
  | _ => false
  end.

(** The API calls of a run, in order, and what it printed, in order. *)
Definition api_calls {A} (r : Run A) : list event :=
  filter (λ e, is_api_call e = true) (trace r).

Definition printed {A} (r : Run A) : list event :=
  filter (λ e, is_api_call e = false) (trace r).


(** [sep.join(pieces)] *)
Fixpoint join_on (sep : ascii) (pieces : list string) : string :=
  match pieces with
  | [] => ""
  | [piece] => piece
  | piece :: rest => piece +:+ String sep (join_on sep rest)
  end.

Fixpoint count_char (c : ascii) (s : string) : nat :=
  match s with
  | EmptyString => 0%nat
  | String a r => ((if Ascii.eqb a c then 1 else 0) + count_char c r)%nat
  end.

(** No white space at either end. *)
Definition stripped (s : string) : Prop := Py.strip s = s.

(** A label without words: empty or white space only. *)
Definition blank (label : string) : Prop := Py.split label = [].

(** An occurrence of refs/pull/<digits>/merge in [s], after [pre] and with
    [d] for the digits. *)
Definition occurs_at (s pre d : string) : Prop :=
  ∃ post,
    s = pre +:+ "refs/pull/" +:+ d +:+ "/merge" +:+ post
    ∧ d ≠ "" ∧ all_digits d = true.

(** [c * n] *)
Fixpoint replicate_char (n : nat) (c : ascii) : string :=
  match n with
  | O => EmptyString
  | S n' => String c (replicate_char n' c)
  end.

(** A reference with one digit more than [int] takes. *)
Definition long_ref : string :=
  "refs/pull/" +:+ replicate_char 4301 "9" +:+ "/merge".

(** The test of lines 168-169 on one label without blank words. *)
Definition targets_repo (repo_name label : string) : bool :=
  match last (Py.split label) with
  | Some last_word => Py.contains (Py.lower last_word) (Py.lower repo_name)
  | None => false
  end.

(** ** Sample runs *)

Definition sample_argv (valid invalid hint : string) : list string :=
  ["verify_pr_lables.py"; "ghp_token"; valid; invalid; hint; "unused"].

Definition sample_inputs (valid invalid : list string) (hint repo ref ev : string)
  : Inputs :=
  {| token := "ghp_token"; valid_labels := valid; invalid_labels := invalid;
     pr_number_str := hint; repo_name := repo; github_ref := ref;
     github_event_name := ev |}.

Definition sample_before (valid invalid : list string) (repo : string) (n : Z)
  : list event :=
  [Print Stdout [Text "Valid labels are: "; ReprList valid];
   Print Stdout [Text "Invalid labels are: "; ReprList invalid];
   ApiGetRepo "ghp_token" repo;
   Print Stdout [Text "Pull request number: "; Num n];
   ApiGetPull n].

Example lower_mixed : Py.lower "No Parity" = "no parity".
Proof. reflexivity. Qed.

Example strip_spaces : Py.strip "  a b " = "a b".
Proof. reflexivity. Qed.

Example split_on_commas :
  Py.split_on "," " a , b,," = [" a "; " b"; ""; ""].
Proof. reflexivity. Qed.

Example split_on_empty : Py.split_on "," "" = [""].
Proof. reflexivity. Qed.

Example split_words : Py.split " target   widget " = ["target"; "widget"].
Proof. reflexivity. Qed.

Example split_blank : Py.split "   " = [].
Proof. reflexivity. Qed.

Example contains_widget : Py.contains "widget" "org/widget" = true.
Proof. reflexivity. Qed.

Example contains_empty : Py.contains "" "" = true.
Proof. reflexivity. Qed.

Example int_examples :
  (Py.int " +1_2_3 ", Py.int "-0012", Py.int "1__0", Py.int "_1",
   Py.int "1_", Py.int "", Py.int "- 1", Py.int "12a")
  = (Some 123, Some (-12), None, None, None, None, None, None).
Proof. reflexivity. Qed.

Example forbidden_loop_keeps_last_match :
  forbidden_loop (sample_inputs [] [] "" "Org/Widget" "" "")
    ["target WIDGET"; "feature parity"; "for org"] ""
  = MkRun [] (Returns "for org").
Proof. reflexivity. Qed.

Example forbidden_loop_blank_label :
  forbidden_loop (sample_inputs [] [] "" "org/widget" "" "") ["  "] ""
  = MkRun [] (Raises IndexError).
Proof. reflexivity. Qed.

Example search_examples :
  (Py.search_pull_ref "refs/pull/12/merge",
   Py.search_pull_ref "xrefs/pull/1a/merge refs/pull/007/mergey",
   Py.search_pull_ref "refs/pull//merge",
   Py.search_pull_ref "refs/pull/refs/pull/3/merge",
   Py.search_pull_ref "refs/heads/main")
  = (Some "12", Some "007", None, Some "3", None).
Proof. reflexivity. Qed.


(** ** The process monad *)

Section RunLaws.
Context {A B : Type}.
Implicit Types (m : Run A) (f : A → Run B).

Lemma bind_Returns m f t a :
  m = MkRun t (Returns a) →
  m ≫= f = MkRun (t ++ trace (f a)) (outcome (f a)).
Proof. intros ->. reflexivity. Qed.

Lemma bind_Exits m f t c :
  m = MkRun t (Exits c) → m ≫= f = MkRun t (Exits c).
Proof. intros ->. reflexivity. Qed.

Lemma bind_Raises m f t e :
  m = MkRun t (Raises e) → m ≫= f = MkRun t (Raises e).
Proof. intros ->. reflexivity. Qed.

(** A run that goes past a bind went through both halves. *)
Lemma bind_Returns_inv m f t b :
  m ≫= f = MkRun t (Returns b) →
  ∃ t1 a t2, m = MkRun t1 (Returns a) ∧ f a = MkRun t2 (Returns b)
             ∧ t = t1 ++ t2.
Proof.
  destruct m as [t1 [a|c|e]]; unfold mbind, Run_bind; simpl; intros H;
    try discriminate.
  destruct (f a) as [t2 o] eqn:Hf. simpl in H. injection H as <- ->.
  eauto 6.
Qed.

(** What holds of every event of both halves holds of the whole trace. *)
Lemma bind_trace_Forall (P : event → Prop) m f :
  Forall P (trace m) → (∀ a, Forall P (trace (f a))) →
  Forall P (trace (m ≫= f)).
Proof.
  intros Hm Hf. destruct m as [t1 [a|c|e]]; unfold mbind, Run_bind; simpl in *;
    auto.
  apply Forall_app; auto.
Qed.

(** Exits with 1 in both halves are exits with 1 in the whole. *)
Lemma bind_exits_with_1 m f :
  exits_with_1 m → (∀ a, exits_with_1 (f a)) → exits_with_1 (m ≫= f).
Proof.
  intros Hm Hf. destruct m as [t1 [a|c|e]]; unfold mbind, Run_bind; auto.
  apply Hf.
Qed.

Lemma bind_exit_status_1 m f :
  exits_with_1 m → (∀ a, exit_status (f a) = 1) →
  exit_status (m ≫= f) = 1.
Proof.
  intros Hm Hf. destruct m as [t1 [a|c|e]];
    unfold mbind, Run_bind, exit_status; simpl.
  - apply Hf.
  - exact Hm.
  - reflexivity.
Qed.
End RunLaws.

(** ** Command line and environment (lines 10-67) *)

Lemma get_env_var_set environ env_var_name value :
  environ !! env_var_name = Some value →
  get_env_var environ env_var_name false = MkRun [] (Returns value).
Proof. intros H. unfold get_env_var. rewrite H. reflexivity. Qed.

Lemma get_env_var_unset environ env_var_name echo_value :
  environ !! env_var_name = None →
  get_env_var environ env_var_name echo_value
  = MkRun [Print Stderr [Text "ERROR: The environmental variable ";
                         Text env_var_name; Text " is empty!"]] (Exits 1).
Proof. intros H. unfold get_env_var. rewrite H. reflexivity. Qed.

Lemma input_resolver_ok prog tok a2 a3 a4 a5 environ rn rf ev :
  tok ≠ "" →
  environ !! "GITHUB_REPOSITORY" = Some rn →
  environ !! "GITHUB_REF" = Some rf →
  environ !! "GITHUB_EVENT_NAME" = Some ev →
  let i := {| token := tok;
              valid_labels := Py.strip <$> Py.split_on "," a2;
              invalid_labels := Py.strip <$> Py.split_on "," a3;
              pr_number_str := a4;
              repo_name := rn; github_ref := rf; github_event_name := ev |} in
  input_resolver [prog; tok; a2; a3; a4; a5] environ
  = MkRun (echoed i) (Returns i).
Proof.
  intros Htok Hrn Hrf Hev i. unfold input_resolver.
  destruct tok as [|c tok]; [congruence|].
  cbn [length Nat.eqb negb getitem lookup list_lookup Py.is_empty].
  rewrite (get_env_var_set _ _ _ Hrn), (get_env_var_set _ _ _ Hrf),
    (get_env_var_set _ _ _ Hev).
  reflexivity.
Qed.

Lemma input_resolver_Returns argv environ t i :
  input_resolver argv environ = MkRun t (Returns i) →
  ∃ prog a2 a3 a4 a5,
    argv = [prog; token i; a2; a3; a4; a5]
    ∧ token i ≠ ""
    ∧ valid_labels i = Py.strip <$> Py.split_on "," a2
    ∧ invalid_labels i = Py.strip <$> Py.split_on "," a3
    ∧ pr_number_str i = a4
    ∧ environ !! "GITHUB_REPOSITORY" = Some (repo_name i)
    ∧ environ !! "GITHUB_REF" = Some (github_ref i)
    ∧ environ !! "GITHUB_EVENT_NAME" = Some (github_event_name i)
    ∧ t = echoed i.
Proof.
  intros H.
  destruct argv as [|prog [|tok [|a2 [|a3 [|a4 [|a5 [|a6 rest]]]]]]];
    try discriminate H.
  destruct tok as [|c tok]; [discriminate H|].
  destruct (environ !! "GITHUB_REPOSITORY") as [rn|] eqn:Hrn;
    [|unfold input_resolver in H; cbn [length Nat.eqb negb getitem lookup
        list_lookup Py.is_empty] in H;
      rewrite (get_env_var_unset _ _ _ Hrn) in H; discriminate H].
  destruct (environ !! "GITHUB_REF") as [rf|] eqn:Hrf;
    [|unfold input_resolver in H; cbn [length Nat.eqb negb getitem lookup
        list_lookup Py.is_empty] in H;
      rewrite (get_env_var_set _ _ _ Hrn), (get_env_var_unset _ _ _ Hrf) in H;
      discriminate H].
  destruct (environ !! "GITHUB_EVENT_NAME") as [ev|] eqn:Hev;
    [|unfold input_resolver in H; cbn [length Nat.eqb negb getitem lookup
        list_lookup Py.is_empty] in H;
      rewrite (get_env_var_set _ _ _ Hrn), (get_env_var_set _ _ _ Hrf),
        (get_env_var_unset _ _ _ Hev) in H;
      discriminate H].
  rewrite (input_resolver_ok prog (String c tok) a2 a3 a4 a5 environ rn rf ev)
    in H by (try done).
  injection H as <- <-. simpl. eauto 20.
Qed.

Lemma input_resolver_rejects argv environ :
  length argv ≠ 6%nat
  ∨ argv !! 1%nat = Some ""
  ∨ (∃ v, v ∈ required_env_vars ∧ environ !! v = None) →
  ∃ t line,
    input_resolver argv environ = MkRun (t ++ [Print Stderr line]) (Exits 1)
    ∧ Forall (λ e, is_api_call e = false) t.
Proof.
  intros H.
  destruct argv as [|prog [|tok [|a2 [|a3 [|a4 [|a5 [|a6 rest]]]]]]];
    try (exists [], [Text "ERROR: Invalid number of arguments!"];
         split; [reflexivity|constructor]).
  destruct tok as [|c tok];
    [exists [], [Text "ERROR: A token must be provided!"];
     split; [reflexivity|constructor]|].
  unfold input_resolver.
  cbn [length Nat.eqb negb getitem lookup list_lookup Py.is_empty].
  destruct (environ !! "GITHUB_REPOSITORY") as [rn|] eqn:Hrn.
  2:{ rewrite (get_env_var_unset _ _ _ Hrn). eexists [_; _], _.
      split; [reflexivity|]. repeat constructor. }
  rewrite (get_env_var_set _ _ _ Hrn).
  destruct (environ !! "GITHUB_REF") as [rf|] eqn:Hrf.
  2:{ rewrite (get_env_var_unset _ _ _ Hrf). eexists [_; _], _.
      split; [reflexivity|]. repeat constructor. }
  rewrite (get_env_var_set _ _ _ Hrf).
  destruct (environ !! "GITHUB_EVENT_NAME") as [ev|] eqn:Hev.
  2:{ rewrite (get_env_var_unset _ _ _ Hev). eexists [_; _], _.
      split; [reflexivity|]. repeat constructor. }
  exfalso. destruct H as [H|[H|(v & Hv & Hnone)]].
  - apply H; reflexivity.
  - discriminate H.
  - unfold required_env_vars in Hv.
    rewrite !elem_of_cons, elem_of_nil in Hv.
    destruct Hv as [->|[->|[->|[]]]]; congruence.
Qed.

(** [main] reads [sys.argv] through its length and its items 1 to 4. *)
Lemma input_resolver_reads argv argv' environ :
  length argv = length argv' →
  (∀ k, (1 ≤ k ≤ 4)%nat → argv !! k = argv' !! k) →
  input_resolver argv environ = input_resolver argv' environ.
Proof.
  intros Hlen Hitems. unfold input_resolver, getitem.
  rewrite Hlen, (Hitems 1%nat), (Hitems 2%nat), (Hitems 3%nat),
    (Hitems 4%nat) by lia.
  reflexivity.
Qed.

Lemma trace_bind {A B} (m : Run A) (f : A → Run B) :
  trace (m ≫= f)
  = trace m ++ match outcome m with Returns a => trace (f a) | _ => [] end.
Proof.
  destruct m as [t [a|c|e]]; unfold mbind, Run_bind; simpl;
    rewrite ?app_nil_r; reflexivity.
Qed.

(** After the command line and the environment are accepted, the first
    thing the script does is ask for the repository. *)
Lemma main_asks_for_repository argv environ gh t i :
  input_resolver argv environ = MkRun t (Returns i) →
  (t ++ [ApiGetRepo (token i) (repo_name i)])
    `prefix_of` trace (main argv environ gh).
Proof.
  intros H. unfold main, prologue, pull_request_locator.
  rewrite !trace_bind, H. cbn [trace outcome emit].
  rewrite !trace_bind. cbn [trace outcome emit].
  rewrite <- !app_assoc. apply prefix_app, prefix_app_r. reflexivity.
Qed.

Lemma main_rejects argv environ gh t c :
  input_resolver argv environ = MkRun t (Exits c) →
  main argv environ gh = MkRun t (Exits c).
Proof.
  intros H. unfold main, prologue.
  erewrite (bind_Exits (input_resolver argv environ)) by exact H.
  reflexivity.
Qed.

(** C8. An invocation with a number of arguments other than five (program
    name not counted), or with an empty token, or with one of
    GITHUB_REPOSITORY, GITHUB_REF, GITHUB_EVENT_NAME unset, ends with a line
    on the error stream and status 1, and its trace holds no API call. *)
Theorem C8_configuration_errors argv environ gh :
  length argv ≠ 6%nat
  ∨ argv !! 1%nat = Some ""
  ∨ (∃ v, v ∈ required_env_vars ∧ environ !! v = None) →
  (∃ t line, main argv environ gh = MkRun (t ++ [Print Stderr line]) (Exits 1))
  ∧ Forall (λ e, is_api_call e = false) (trace (main argv environ gh))
  ∧ exit_status (main argv environ gh) = 1.
Proof.
  intros H.
  destruct (input_resolver_rejects argv environ H) as (t & line & Hres & Hno).
  rewrite (main_rejects _ _ gh _ _ Hres).
  split; [eauto|]. split; [|reflexivity].
  cbn [trace]. apply Forall_app. split; [exact Hno|].
  repeat constructor.
Qed.

Lemma C8_configuration_errors_witness :
  let argv := sample_argv "a,b" "blocked" "7" in
  let environ := delete "GITHUB_REF"
                   (actions_env "org/widget" "refs/pull/7/merge" "pull_request") in
  let gh := single_pr "org/widget" 7 "org/widget" "org/widget" ["a"] in
  (∃ t line, main argv environ gh = MkRun (t ++ [Print Stderr line]) (Exits 1))
  ∧ Forall (λ e, is_api_call e = false) (trace (main argv environ gh))
  ∧ exit_status (main argv environ gh) = 1.
Proof.
  intros argv environ gh. apply (C8_configuration_errors argv environ gh).
  right; right. exists "GITHUB_REF". split.
  - unfold required_env_vars. apply list_elem_of_further, list_elem_of_here.
  - vm_compute. reflexivity.
Defined.

(** C9. Two invocations that differ at most in the fifth positional
    argument, with the same environment and the same API responses, are
    the same run: same output, same API calls, same outcome. *)
Theorem C9_fifth_argument_unused argv argv' environ gh :
  length argv = length argv' →
  (∀ k, k ≠ 5%nat → argv !! k = argv' !! k) →
  main argv environ gh = main argv' environ gh
  ∧ exit_status (main argv environ gh) = exit_status (main argv' environ gh).
Proof.
  intros Hlen Hitems.
  assert (main argv environ gh = main argv' environ gh) as ->; [|done].
  unfold main, prologue.
  rewrite (input_resolver_reads argv argv' environ Hlen); [reflexivity|].
  intros k Hk. apply Hitems. lia.
Qed.

Lemma C9_fifth_argument_unused_witness :
  let argv := ["prog"; "tok"; "a,b"; "blocked"; "7"; "unused"] in
  let argv' := ["prog"; "tok"; "a,b"; "blocked"; "7"; "something else"] in
  let environ := actions_env "org/widget" "refs/pull/7/merge" "pull_request" in
  let gh := single_pr "org/widget" 7 "org/widget" "org/widget" ["zzz"] in
  main argv environ gh = main argv' environ gh
  ∧ exit_status (main argv environ gh) = exit_status (main argv' environ gh).
Proof.
  intros argv argv' environ gh.
  apply (C9_fifth_argument_unused argv argv' environ gh).
  - reflexivity.
  - intros k Hk.
    do 6 (destruct k as [|k]; [first [reflexivity | congruence]|]).
    reflexivity.
Defined.

(** C10. A required environment variable that is set to the empty string
    is accepted: [get_env_var] returns the empty string and prints nothing,
    and it exits (with its error line, status 1) exactly when the variable
    is not set at all. With five arguments and a token, a run whose three
    variables are all set, to whatever value, gets through the input checks
    and goes on to ask the API for the repository. *)
Theorem C10_empty_value_accepted environ :
  (∀ env_var_name, environ !! env_var_name = Some "" →
     get_env_var environ env_var_name false = MkRun [] (Returns ""))
  ∧ (∀ env_var_name echo_value,
       (∃ t, get_env_var environ env_var_name echo_value = MkRun t (Exits 1))
       ↔ environ !! env_var_name = None)
  ∧ (∀ prog tok a2 a3 a4 a5 gh,
       tok ≠ "" →
       (∀ v, v ∈ required_env_vars → is_Some (environ !! v)) →
       ∃ i, input_resolver [prog; tok; a2; a3; a4; a5] environ
            = MkRun (echoed i) (Returns i)
            ∧ environ !! "GITHUB_REPOSITORY" = Some (repo_name i)
            ∧ environ !! "GITHUB_REF" = Some (github_ref i)
            ∧ environ !! "GITHUB_EVENT_NAME" = Some (github_event_name i)
            ∧ (echoed i ++ [ApiGetRepo tok (repo_name i)])
                `prefix_of` trace (main [prog; tok; a2; a3; a4; a5] environ gh)).
Proof.
  split; [|split].
  - intros env_var_name H. apply get_env_var_set, H.
  - intros env_var_name echo_value. split.
    + intros [t H]. unfold get_env_var in H.
      destruct (environ !! env_var_name); [|reflexivity].
      destruct echo_value; discriminate H.
    + intros H. rewrite (get_env_var_unset _ _ _ H). eauto.
  - intros prog tok a2 a3 a4 a5 gh Htok Hset.
    destruct (Hset "GITHUB_REPOSITORY") as [rn Hrn];
      [apply list_elem_of_here|].
    destruct (Hset "GITHUB_REF") as [rf Hrf];
      [apply list_elem_of_further, list_elem_of_here|].
    destruct (Hset "GITHUB_EVENT_NAME") as [ev Hev];
      [do 2 apply list_elem_of_further; apply list_elem_of_here|].
    pose proof (input_resolver_ok prog tok a2 a3 a4 a5 environ rn rf ev
                  Htok Hrn Hrf Hev) as Hok.
    cbv zeta in Hok. eexists. split; [exact Hok|].
    repeat split; try assumption.
    apply (main_asks_for_repository _ _ gh _ _ Hok).
Qed.

Lemma C10_empty_value_accepted_witness :
  let environ := actions_env "" "" "" in
  get_env_var environ "GITHUB_REF" false = MkRun [] (Returns "")
  ∧ ∃ i, input_resolver (sample_argv "a" "b" "7") environ
         = MkRun (echoed i) (Returns i)
         ∧ (echoed i ++ [ApiGetRepo "ghp_token" (repo_name i)])
             `prefix_of`
             trace (main (sample_argv "a" "b" "7") environ
                      (single_pr "" 7 "" "" ["a"])).
Proof.
  intros environ.
  destruct (C10_empty_value_accepted environ) as (Hget & _ & Hrun).
  split.
  - apply Hget. vm_compute. reflexivity.
  - destruct (Hrun "verify_pr_lables.py" "ghp_token" "a" "b" "7" "unused"
                (single_pr "" 7 "" "" ["a"])) as (i & Hi & _ & _ & _ & Hpre).
    + discriminate.
    + intros v Hv. unfold required_env_vars in Hv.
      rewrite !elem_of_cons, elem_of_nil in Hv.
      destruct Hv as [->|[->|[->|[]]]]; vm_compute; eauto.
    + exists i. split; [exact Hi | exact Hpre].
Defined.

(** ** The reference pattern and [int] (lines 79, 89) *)

Lemma append_empty (r : string) : "" +:+ r = r.
Proof. reflexivity. Qed.

Lemma append_String (c : ascii) (p r : string) :
  String c p +:+ r = String c (p +:+ r).
Proof. reflexivity. Qed.

Ltac push_append := rewrite ?append_String, ?append_empty in *.

Lemma strip_prefix_Some p s r : Py.strip_prefix p s = Some r ↔ s = p +:+ r.
Proof.
  revert s. induction p as [|a p IH]; intros s; simpl; push_append.
  - split; congruence.
  - destruct s as [|b s]; [split; discriminate|].
    destruct (Ascii.eqb_spec a b) as [->|Hne].
    + rewrite IH. split; congruence.
    + split; [discriminate|]. intros [= -> _]. congruence.
Qed.

Lemma startswith_append p r : Py.startswith (p +:+ r) p = true.
Proof.
  unfold Py.startswith.
  destruct (Py.strip_prefix p (p +:+ r)) eqn:H; [reflexivity|].
  assert (Py.strip_prefix p (p +:+ r) = Some r) as H'
    by (apply strip_prefix_Some; reflexivity).
  congruence.
Qed.

Lemma startswith_inv s p :
  Py.startswith s p = true → ∃ r, s = p +:+ r.
Proof.
  unfold Py.startswith.
  destruct (Py.strip_prefix p s) as [r|] eqn:H; [|discriminate].
  intros _. exists r. apply strip_prefix_Some, H.
Qed.

Lemma span_digits_spec s d rest :
  Py.span_digits s = (d, rest) →
  s = d +:+ rest ∧ all_digits d = true.
Proof.
  revert d rest. induction s as [|c s IH]; simpl; intros d rest H.
  - injection H as <- <-. auto.
  - destruct (Py.isdigit c) eqn:Hc.
    + destruct (Py.span_digits s) as [d' rest'].
      injection H as <- <-. destruct (IH d' rest' eq_refl) as [-> Hd].
      push_append. simpl. rewrite Hc, Hd. auto.
    + injection H as <- <-. auto.
Qed.

(** The greedy run stops exactly where the digits stop. *)
Lemma span_digits_append d c r :
  all_digits d = true → Py.isdigit c = false →
  Py.span_digits (d +:+ String c r) = (d, String c r).
Proof.
  intros Hd Hc. induction d as [|a d IH]; push_append; simpl in *.
  - rewrite Hc. reflexivity.
  - apply andb_prop in Hd as [Ha Hd]. rewrite Ha, (IH Hd). reflexivity.
Qed.

Lemma match_pull_ref_sound s d :
  Py.match_pull_ref s = Some d →
  ∃ post, s = "refs/pull/" +:+ d +:+ "/merge" +:+ post
          ∧ d ≠ "" ∧ all_digits d = true.
Proof.
  unfold Py.match_pull_ref.
  destruct (Py.strip_prefix "refs/pull/" s) as [r|] eqn:Hp; [|discriminate].
  apply strip_prefix_Some in Hp.
  destruct (Py.span_digits r) as [d' rest] eqn:Hs.
  apply span_digits_spec in Hs as [-> Hd].
  destruct d' as [|c d']; [discriminate|]. cbn [Py.is_empty].
  destruct (Py.startswith rest "/merge") eqn:Hm; [|discriminate].
  apply startswith_inv in Hm as [post ->].
  intros [= <-]. exists post. rewrite Hp. auto.
Qed.

Lemma match_pull_ref_complete d post :
  d ≠ "" → all_digits d = true →
  Py.match_pull_ref ("refs/pull/" +:+ d +:+ "/merge" +:+ post) = Some d.
Proof.
  intros Hne Hd. unfold Py.match_pull_ref.
  assert (Py.strip_prefix "refs/pull/" ("refs/pull/" +:+ d +:+ "/merge" +:+ post)
          = Some (d +:+ "/merge" +:+ post)) as ->
    by (apply strip_prefix_Some; reflexivity).
  rewrite (append_String "/" "merge" post).
  rewrite span_digits_append by (assumption || reflexivity).
  rewrite <- (append_String "/" "merge" post), startswith_append.
  destruct d; [congruence|]. reflexivity.
Qed.

Lemma search_pull_ref_sound s d :
  Py.search_pull_ref s = Some d → pull_ref_occurs s d.
Proof.
  induction s as [|c s IH]; simpl.
  - discriminate.
  - destruct (Py.match_pull_ref (String c s)) as [d'|] eqn:Hm.
    + intros [= ->]. apply match_pull_ref_sound in Hm as (post & Hs & ? & ?).
      exists "", post. auto.
    + intros H. destruct (IH H) as (pre & post & -> & ? & ?).
      exists (String c pre), post. auto.
Qed.

Lemma search_pull_ref_here s d :
  Py.match_pull_ref s = Some d → Py.search_pull_ref s = Some d.
Proof.
  intros H. destruct s; [discriminate H|].
  cbn [Py.search_pull_ref]. rewrite H. reflexivity.
Qed.

Lemma search_pull_ref_complete s d :
  pull_ref_occurs s d → is_Some (Py.search_pull_ref s).
Proof.
  intros (pre & post & -> & Hne & Hd).
  induction pre as [|c pre IH]; push_append.
  - rewrite (search_pull_ref_here _ d); [eauto|].
    apply match_pull_ref_complete; assumption.
  - cbn [Py.search_pull_ref].
    destruct (Py.match_pull_ref _); eauto.
Qed.

(** No occurrence of the pattern, no result, and conversely. *)
Lemma search_pull_ref_None s :
  Py.search_pull_ref s = None ↔ ¬ ∃ d, pull_ref_occurs s d.
Proof.
  split.
  - intros H [d Hd]. apply search_pull_ref_complete in Hd as [d' Hd'].
    congruence.
  - intros H. destruct (Py.search_pull_ref s) as [d|] eqn:Hs; [|reflexivity].
    exfalso. apply H. exists d. apply search_pull_ref_sound, Hs.
Qed.

Lemma isdigit_bounds c : Py.isdigit c = true → 0 ≤ Py.digit_value c ≤ 9.
Proof.
  unfold Py.isdigit, Py.between, Py.digit_value.
  intros [H1 H2]%andb_prop. apply N.leb_le in H1, H2. lia.
Qed.

Lemma isdigit_not_int_space c : Py.isdigit c = true → Py.int_space c = false.
Proof.
  unfold Py.isdigit, Py.int_space, Py.between.
  intros [H1 H2]%andb_prop. apply N.leb_le in H1, H2.
  repeat (apply orb_false_intro);
    rewrite ?andb_false_iff, ?N.leb_gt, ?N.eqb_neq; lia.
Qed.

Lemma lstrip_digits d :
  all_digits d = true → Py.lstrip_with Py.int_space d = d.
Proof.
  destruct d as [|c d]; simpl; [reflexivity|].
  intros [Hc _]%andb_prop. by rewrite (isdigit_not_int_space c Hc).
Qed.

Lemma rstrip_digits d :
  all_digits d = true → Py.rstrip_with Py.int_space d = d.
Proof.
  induction d as [|c d IH]; simpl; [reflexivity|].
  intros [Hc Hd]%andb_prop.
  by rewrite (isdigit_not_int_space c Hc), (IH Hd).
Qed.

Lemma int_digits_all acc after_digit d :
  all_digits d = true → d ≠ "" ∨ after_digit = true →
  Py.int_digits acc after_digit d = Some (decimal_from acc d).
Proof.
  revert acc after_digit. induction d as [|c d IH]; simpl; intros acc b Hd Hne.
  - destruct Hne as [?| ->]; [congruence|reflexivity].
  - apply andb_prop in Hd as [Hc Hd]. rewrite Hc. apply IH; auto.
Qed.

Lemma count_digits_all d :
  all_digits d = true → Py.count_digits d = String.length d.
Proof.
  induction d as [|c d IH]; simpl; [reflexivity|].
  intros [Hc Hd]%andb_prop. rewrite Hc, (IH Hd). reflexivity.
Qed.

(** On a run of digits [int] is [int_body]: no white space, no sign. *)
Lemma int_on_digits d :
  all_digits d = true → Py.int d = Py.int_body d.
Proof.
  intros Hd. unfold Py.int.
  rewrite (lstrip_digits d Hd), (rstrip_digits d Hd).
  destruct d as [|c r]; [reflexivity|].
  apply andb_prop in Hd as [Hc _].
  destruct c as [[] [] [] [] [] [] [] []];
    first [reflexivity | (vm_compute in Hc; discriminate Hc)].
Qed.

(** [int] of a non-empty run of at most 4300 digits is its decimal value. *)
Lemma int_of_digits d :
  d ≠ "" → all_digits d = true →
  (String.length d ≤ Py.int_max_str_digits)%nat →
  Py.int d = Some (decimal d).
Proof.
  intros Hne Hd Hlen. rewrite (int_on_digits d Hd).
  unfold Py.int_body, decimal. rewrite (count_digits_all d Hd).
  rewrite (proj2 (Nat.leb_le _ _) Hlen).
  apply (int_digits_all 0 false d Hd (or_introl Hne)).
Qed.

(** [int] of a longer run of digits raises ValueError. *)
Lemma int_of_long_digits d :
  all_digits d = true →
  (Py.int_max_str_digits < String.length d)%nat →
  Py.int d = None.
Proof.
  intros Hd Hlen. rewrite (int_on_digits d Hd).
  unfold Py.int_body. rewrite (count_digits_all d Hd).
  rewrite (proj2 (Nat.leb_gt _ _) Hlen). reflexivity.
Qed.

Lemma decimal_from_nonneg acc d :
  0 ≤ acc → all_digits d = true → 0 ≤ decimal_from acc d.
Proof.
  revert acc. induction d as [|c d IH]; simpl; intros acc Hacc Hd; [lia|].
  apply andb_prop in Hd as [Hc Hd]. apply IH; [|exact Hd].
  pose proof (isdigit_bounds c Hc). lia.
Qed.

(** ** The pull-request number (lines 76-94) *)

Lemma resolve_pr_number_target i :
  github_event_name i = "pull_request_target" →
  resolve_pr_number i
  = match Py.int (pr_number_str i) with
    | Some n => MkRun [] (Returns n)
    | None => MkRun [bad_number_report] (Exits 1)
    end.
Proof.
  intros H. unfold resolve_pr_number, int_of_str. rewrite H.
  destruct (Py.int (pr_number_str i)); reflexivity.
Qed.

Lemma resolve_pr_number_ref i :
  github_event_name i ≠ "pull_request_target" →
  resolve_pr_number i
  = match Py.search_pull_ref (github_ref i) with
    | Some d =>
        match Py.int d with
        | Some n => MkRun [] (Returns n)
        | None => MkRun [] (Raises ValueError)
        end
    | None => MkRun [no_ref_report (github_ref i)] (Exits 1)
    end.
Proof.
  intros H. unfold resolve_pr_number, search_group1, int_of_str.
  apply String.eqb_neq in H. rewrite H.
  destruct (Py.search_pull_ref (github_ref i)) as [d|] eqn:Hs; [|reflexivity].
  unfold try_except, mbind, Run_bind, mret, Run_ret. cbn [outcome trace].
  destruct (Py.int d); reflexivity.
Qed.

(** The run up to and including the number, for a run that got its
    repository object. *)
Lemma locator_after_repo gh i repo :
  get_repo gh (token i) (repo_name i) = inr repo →
  pull_request_locator gh i
  = MkRun [ApiGetRepo (token i) (repo_name i)] (Returns tt) ≫= λ _,
    resolve_pr_number i ≫= λ pr_number,
    MkRun [Print Stdout [Text "Pull request number: "; Num pr_number];
           ApiGetPull pr_number] (Returns tt) ≫= λ _,
    lift (get_pull repo pr_number).
Proof.
  intros H. unfold pull_request_locator. rewrite H.
  unfold mbind, Run_bind, emit, lift, print, mret, Run_ret.
  cbn [outcome trace app].
  destruct (resolve_pr_number i) as [t [n|c|e]]; reflexivity.
Qed.

Lemma main_number_resolved argv environ gh t i repo n :
  input_resolver argv environ = MkRun t (Returns i) →
  get_repo gh (token i) (repo_name i) = inr repo →
  resolve_pr_number i = MkRun [] (Returns n) →
  (t ++ number_resolved i n) `prefix_of` trace (main argv environ gh).
Proof.
  intros Hin Hrepo Hnum. unfold main, prologue.
  rewrite trace_bind. apply prefix_app_r.
  rewrite trace_bind, Hin. cbn [trace outcome]. apply prefix_app.
  rewrite trace_bind. apply prefix_app_r.
  rewrite (locator_after_repo gh i repo Hrepo), Hnum.
  unfold mbind, Run_bind. cbn [trace outcome app].
  exists (trace (lift (get_pull repo n))). reflexivity.
Qed.

Lemma main_number_fails argv environ gh t i repo e c :
  input_resolver argv environ = MkRun t (Returns i) →
  get_repo gh (token i) (repo_name i) = inr repo →
  resolve_pr_number i = MkRun [e] (Exits c) →
  main argv environ gh
  = MkRun (t ++ [ApiGetRepo (token i) (repo_name i); e]) (Exits c).
Proof.
  intros Hin Hrepo Hnum. unfold main, prologue.
  rewrite (bind_Returns _ _ _ _ Hin). cbn beta.
  rewrite (locator_after_repo gh i repo Hrepo), Hnum. reflexivity.
Qed.

Lemma main_number_raises argv environ gh t i repo e :
  input_resolver argv environ = MkRun t (Returns i) →
  get_repo gh (token i) (repo_name i) = inr repo →
  resolve_pr_number i = MkRun [] (Raises e) →
  main argv environ gh
  = MkRun (t ++ [ApiGetRepo (token i) (repo_name i)]) (Raises e).
Proof.
  intros Hin Hrepo Hnum. unfold main, prologue.
  rewrite (bind_Returns _ _ _ _ Hin). cbn beta.
  rewrite (locator_after_repo gh i repo Hrepo), Hnum. reflexivity.
Qed.

(** C7, as stated, fails for a reference with more digits than [int]
    takes: with 4301 nines between refs/pull/ and /merge the pattern
    matches, and the run, instead of having those digits for its number,
    dies of the ValueError that line 91 does not catch, before it prints a
    number or asks for a pull request. *)
Lemma C7_long_digit_run_raises :
  let argv := sample_argv "a" "b" "7" in
  let environ := actions_env "org/widget" long_ref "pull_request" in
  let gh := single_pr "org/widget" 7 "org/widget" "org/widget" ["a"] in
  let i := sample_inputs ["a"] ["b"] "7" "org/widget" long_ref
             "pull_request" in
  input_resolver argv environ = MkRun (echoed i) (Returns i)
  ∧ get_repo gh (token i) (repo_name i)
    = inr (single_repo 7 "org/widget" "org/widget" ["a"])
  ∧ github_event_name i ≠ "pull_request_target"
  ∧ pull_ref_occurs (github_ref i) (replicate_char 4301 "9")
  ∧ main argv environ gh
    = MkRun (echoed i ++ [ApiGetRepo (token i) (repo_name i)])
        (Raises ValueError)
  ∧ (∀ n, ¬ (echoed i ++ number_resolved i n)
            `prefix_of` trace (main argv environ gh)).
Proof.
  intros argv environ gh i.
  assert (main argv environ gh
          = MkRun (echoed i ++ [ApiGetRepo (token i) (repo_name i)])
              (Raises ValueError)) as Hmain by (vm_compute; reflexivity).
  split; [vm_compute; reflexivity|]. split; [reflexivity|].
  split; [discriminate|]. split.
  { exists "", "". split; [vm_compute; reflexivity|].
    split; [discriminate|vm_compute; reflexivity]. }
  split; [exact Hmain|].
  rewrite Hmain. intros n [k Hk]. cbn in Hk. discriminate Hk.
Qed.

(** C7, amended. In a run that has its inputs and its repository object:
    under the event pull_request_target the number is [int] of the fourth
    argument, and the run prints it and asks for that pull request, or,
    when [int] raises ValueError, ends with the error line and status 1;
    under any other event, when refs/pull/<digits>/merge occurs in
    GITHUB_REF with at most 4300 digits in the match, the number is the
    decimal value of those digits; with more digits [int] raises a
    ValueError that is not caught and the run ends there, status 1; and
    when the pattern occurs nowhere the run ends with the error line and
    status 1. *)
Theorem C7_pull_request_number argv environ gh t i repo :
  input_resolver argv environ = MkRun t (Returns i) →
  get_repo gh (token i) (repo_name i) = inr repo →
  argv !! 4%nat = Some (pr_number_str i)
  ∧ environ !! "GITHUB_REF" = Some (github_ref i)
  ∧ environ !! "GITHUB_EVENT_NAME" = Some (github_event_name i)
  ∧ (github_event_name i = "pull_request_target" →
       match Py.int (pr_number_str i) with
       | Some n =>
           (t ++ number_resolved i n) `prefix_of` trace (main argv environ gh)
       | None =>
           main argv environ gh
           = MkRun (t ++ [ApiGetRepo (token i) (repo_name i); bad_number_report])
               (Exits 1)
           ∧ exit_status (main argv environ gh) = 1
       end)
  ∧ (github_event_name i ≠ "pull_request_target" →
       (∃ d, pull_ref_occurs (github_ref i) d
             ∧ Py.search_pull_ref (github_ref i) = Some d
             ∧ (String.length d ≤ Py.int_max_str_digits)%nat
             ∧ 0 ≤ decimal d
             ∧ (t ++ number_resolved i (decimal d))
                 `prefix_of` trace (main argv environ gh))
       ∨ (∃ d, pull_ref_occurs (github_ref i) d
               ∧ Py.search_pull_ref (github_ref i) = Some d
               ∧ (Py.int_max_str_digits < String.length d)%nat
               ∧ main argv environ gh
                 = MkRun (t ++ [ApiGetRepo (token i) (repo_name i)])
                     (Raises ValueError)
               ∧ exit_status (main argv environ gh) = 1)
       ∨ ((¬ ∃ d, pull_ref_occurs (github_ref i) d)
          ∧ main argv environ gh
            = MkRun (t ++ [ApiGetRepo (token i) (repo_name i);
                           no_ref_report (github_ref i)]) (Exits 1)
          ∧ exit_status (main argv environ gh) = 1)).
Proof.
  intros Hin Hrepo.
  destruct (input_resolver_Returns _ _ _ _ Hin)
    as (prog & a2 & a3 & a4 & a5 & -> & _ & _ & _ & <- & _ & Hrf & Hev & _).
  split; [reflexivity|]. split; [exact Hrf|]. split; [exact Hev|]. split.
  - intros Htarget. pose proof (resolve_pr_number_target i Htarget) as Hnum.
    destruct (Py.int (pr_number_str i)) as [n|].
    + eapply main_number_resolved; eassumption.
    + erewrite main_number_fails by eassumption. split; reflexivity.
  - intros Hother. pose proof (resolve_pr_number_ref i Hother) as Hnum.
    destruct (Py.search_pull_ref (github_ref i)) as [d|] eqn:Hs.
    + destruct (search_pull_ref_sound _ _ Hs) as (pre & post & Heq & Hne & Hd).
      assert (pull_ref_occurs (github_ref i) d) as Hocc
        by (exists pre, post; auto).
      destruct (decide (String.length d ≤ Py.int_max_str_digits)%nat)
        as [Hlen|Hlen].
      * left. exists d. rewrite (int_of_digits d Hne Hd Hlen) in Hnum.
        split; [exact Hocc|]. split; [reflexivity|]. split; [exact Hlen|].
        split; [apply decimal_from_nonneg; [lia|exact Hd]|].
        eapply main_number_resolved; eassumption.
      * right; left. exists d.
        assert (Py.int_max_str_digits < String.length d)%nat as Hlong by lia.
        rewrite (int_of_long_digits d Hd Hlong) in Hnum.
        split; [exact Hocc|]. split; [reflexivity|]. split; [exact Hlong|].
        erewrite main_number_raises by eassumption. split; reflexivity.
    + right; right. split; [apply search_pull_ref_None, Hs|].
      erewrite main_number_fails by eassumption. split; reflexivity.
Qed.

Lemma C7_pull_request_number_witness :
  let argv := sample_argv "a" "b" " 12 " in
  let environ :=
    actions_env "org/widget" "refs/heads/main" "pull_request_target" in
  let gh := single_pr "org/widget" 12 "org/widget" "org/widget" ["a"] in
  let i := sample_inputs ["a"] ["b"] " 12 " "org/widget" "refs/heads/main"
             "pull_request_target" in
  (echoed i ++ number_resolved i 12) `prefix_of` trace (main argv environ gh).
Proof.
  intros argv environ gh i.
  destruct (C7_pull_request_number argv environ gh (echoed i) i
              (single_repo 12 "org/widget" "org/widget" ["a"]))
    as (_ & _ & _ & Htarget & _).
  - vm_compute. reflexivity.
  - reflexivity.
  - exact (Htarget eq_refl).
Defined.

(** ** Pull requests from forks (lines 101-107) *)

Lemma resolve_pr_number_quiet i :
  Forall (λ e, is_api_call e = false) (trace (resolve_pr_number i)).
Proof.
  destruct (decide (github_event_name i = "pull_request_target")) as [H|H].
  - rewrite (resolve_pr_number_target i H).
    destruct (Py.int _); repeat constructor.
  - rewrite (resolve_pr_number_ref i H).
    destruct (Py.search_pull_ref _) as [d|]; [destruct (Py.int d)|];
      repeat constructor.
Qed.

Lemma lift_trace {A} (r : exn + A) : trace (lift r) = [].
Proof. destruct r; reflexivity. Qed.

(** Nothing before label evaluation lists the labels. *)
Lemma locator_lists_no_labels gh i :
  Forall (λ e, e ≠ ApiGetLabels) (trace (pull_request_locator gh i)).
Proof.
  unfold pull_request_locator.
  repeat (apply bind_trace_Forall; [|intros ?]);
    rewrite ?lift_trace; try (repeat constructor; discriminate).
  eapply Forall_impl; [apply resolve_pr_number_quiet|].
  intros e He ->. discriminate He.
Qed.

Lemma fork_check_forbidden i pr :
  head_repo_full_name pr ≠ base_repo_full_name pr →
  github_event_name i ≠ "pull_request_target" →
  fork_check i pr = MkRun [fork_report] (Exits 1).
Proof.
  intros Hfork Hev. unfold fork_check.
  apply String.eqb_neq in Hfork, Hev. rewrite Hfork, Hev. reflexivity.
Qed.

(** C6. When the pull request that was fetched has a head repository whose
    full name differs from that of its base repository and
    GITHUB_EVENT_NAME is not pull_request_target, the run ends right after
    the fetch with the fork error line and status 1; the labels are never
    listed. *)
Theorem C6_fork_requires_target argv environ gh t i t' pr :
  input_resolver argv environ = MkRun t (Returns i) →
  pull_request_locator gh i = MkRun t' (Returns pr) →
  head_repo_full_name pr ≠ base_repo_full_name pr →
  environ !! "GITHUB_EVENT_NAME" ≠ Some "pull_request_target" →
  main argv environ gh = MkRun (t ++ t' ++ [fork_report]) (Exits 1)
  ∧ exit_status (main argv environ gh) = 1
  ∧ ApiGetLabels ∉ trace (main argv environ gh).
Proof.
  intros Hin Hloc Hfork Hev.
  destruct (input_resolver_Returns _ _ _ _ Hin)
    as (_ & _ & _ & _ & _ & _ & _ & _ & _ & _ & _ & _ & Hev' & Ht).
  assert (github_event_name i ≠ "pull_request_target") as Hne by congruence.
  assert (main argv environ gh = MkRun (t ++ t' ++ [fork_report]) (Exits 1))
    as Hmain.
  { unfold main, prologue.
    rewrite (bind_Returns _ _ _ _ Hin). cbn beta.
    rewrite (bind_Returns _ _ _ _ Hloc). cbn beta.
    rewrite (fork_check_forbidden i pr Hfork Hne). reflexivity. }
  rewrite Hmain. split; [reflexivity|]. split; [reflexivity|].
  cbn [trace]. rewrite !elem_of_app, list_elem_of_singleton.
  intros [Hl|[Hl|Hl]]; [| |discriminate Hl].
  - rewrite Ht in Hl. unfold echoed in Hl.
    rewrite !elem_of_cons, elem_of_nil in Hl.
    destruct Hl as [Hl|[Hl|[]]]; discriminate Hl.
  - pose proof (locator_lists_no_labels gh i) as Hno.
    rewrite Hloc in Hno. cbn [trace] in Hno.
    rewrite Forall_forall in Hno. exact (Hno _ Hl eq_refl).
Qed.

Lemma C6_fork_requires_target_witness :
  let argv := sample_argv "a" "b" "7" in
  let environ := actions_env "org/widget" "refs/pull/7/merge" "pull_request" in
  let gh := single_pr "org/widget" 7 "fork/widget" "org/widget" ["a"] in
  main argv environ gh
  = MkRun (sample_before ["a"] ["b"] "org/widget" 7 ++ [fork_report]) (Exits 1)
  ∧ exit_status (main argv environ gh) = 1
  ∧ ApiGetLabels ∉ trace (main argv environ gh).
Proof.
  intros argv environ gh.
  apply (C6_fork_requires_target argv environ gh
           [Print Stdout [Text "Valid labels are: "; ReprList ["a"]];
            Print Stdout [Text "Invalid labels are: "; ReprList ["b"]]]
           (sample_inputs ["a"] ["b"] "7" "org/widget" "refs/pull/7/merge"
              "pull_request")
           [ApiGetRepo "ghp_token" "org/widget";
            Print Stdout [Text "Pull request number: "; Num 7];
            ApiGetPull 7]
           (single_pull "fork/widget" "org/widget" ["a"])).
  - vm_compute. reflexivity.
  - vm_compute. reflexivity.
  - vm_compute. discriminate.
  - vm_compute. discriminate.
Defined.

(** ** Label evaluation (lines 109-188) *)

Lemma found_in_snoc wanted pr_labels label :
  found_in wanted (pr_labels ++ [label])
  = found_in wanted pr_labels
    ++ (if str_in (name label) wanted then [name label] else []).
Proof.
  unfold found_in, str_in. rewrite fmap_app, filter_app. f_equal.
  cbn [fmap list_fmap]. rewrite filter_cons, filter_nil.
  destruct (decide (name label ∈ wanted)) as [H|H].
  - by rewrite (bool_decide_eq_true_2 _ H).
  - by rewrite (bool_decide_eq_false_2 _ H).
Qed.

(** The loop of lines 120-124 computes the two filters. *)
Lemma classify_found i pr_labels :
  classify i pr_labels
  = (found_in (valid_labels i) pr_labels,
     found_in (invalid_labels i) pr_labels).
Proof.
  unfold classify.
  induction pr_labels as [|label pr_labels IH] using rev_ind; [reflexivity|].
  rewrite fold_left_app, IH. cbn [fold_left classify_step].
  rewrite !found_in_snoc.
  destruct (str_in (name label) (valid_labels i)),
    (str_in (name label) (invalid_labels i));
    rewrite ?app_nil_r; reflexivity.
Qed.

Lemma found_in_elem wanted pr_labels n :
  n ∈ found_in wanted pr_labels
  ↔ n ∈ wanted ∧ ∃ label, label ∈ pr_labels ∧ name label = n.
Proof.
  unfold found_in. rewrite list_elem_of_filter, list_elem_of_fmap.
  split; intros [? (label & ? & ?)]; eauto.
Qed.

Lemma found_in_nil wanted pr_labels :
  found_in wanted pr_labels = []
  ↔ ∀ label, label ∈ pr_labels → name label ∉ wanted.
Proof.
  split.
  - intros H label Hl Hw.
    assert (name label ∈ found_in wanted pr_labels) as Hin
      by (apply found_in_elem; eauto).
    rewrite H in Hin. by apply elem_of_nil in Hin.
  - intros H. destruct (found_in wanted pr_labels) as [|n l] eqn:Hf;
      [reflexivity|].
    assert (n ∈ found_in wanted pr_labels) as Hin
      by (rewrite Hf; apply list_elem_of_here).
    apply found_in_elem in Hin as (Hw & label & Hl & <-).
    destruct (H label Hl Hw).
Qed.

(** Rule 1: an invalid label ends the run at once. *)
Lemma decide_labels_invalid i pr_valid_labels pr_invalid_labels :
  pr_invalid_labels ≠ [] →
  decide_labels i pr_valid_labels pr_invalid_labels
  = MkRun [invalid_report pr_invalid_labels; exiting_note] (Exits 1).
Proof. destruct pr_invalid_labels; [congruence|reflexivity]. Qed.

(** Rule 2: no invalid label and no valid label. *)
Lemma decide_labels_missing i :
  decide_labels i [] []
  = MkRun [no_invalid_note; missing_report (valid_labels i); exiting_note]
      (Exits 1).
Proof. reflexivity. Qed.

(** The first turn of the loop of line 154 reads [label.name] on a [str]. *)
Lemma parity_loop_raises pr_valid_labels label rest flag :
  parity_loop pr_valid_labels (label :: rest) flag
  = MkRun [] (Raises AttributeError).
Proof. reflexivity. Qed.

(** Hence every run with a valid label and no invalid label stops there,
    before the rules on "no parity" and on the repository name and before
    the confirmation. *)
Lemma decide_labels_raises i pr_valid_labels :
  pr_valid_labels ≠ [] →
  decide_labels i pr_valid_labels []
  = MkRun [no_invalid_note] (Raises AttributeError).
Proof. destruct pr_valid_labels; [congruence|reflexivity]. Qed.

Lemma main_label_evaluation argv environ gh before i pr_labels :
  reaches_label_evaluation argv environ gh before i pr_labels →
  let verdict := decide_labels i (found_in (valid_labels i) pr_labels)
                   (found_in (invalid_labels i) pr_labels) in
  main argv environ gh
  = MkRun (before ++ ApiGetLabels :: trace verdict) (outcome verdict).
Proof.
  intros (pr & Hpro & Hlabels) verdict. unfold main.
  rewrite (bind_Returns _ _ _ _ Hpro). cbn beta iota.
  unfold label_classifier. rewrite Hlabels.
  unfold mbind, Run_bind, emit, lift, mret, Run_ret. cbn [trace outcome app].
  rewrite classify_found. reflexivity.
Qed.

Lemma main_valid_label_raises argv environ gh before i pr_labels :
  reaches_label_evaluation argv environ gh before i pr_labels →
  found_in (invalid_labels i) pr_labels = [] →
  found_in (valid_labels i) pr_labels ≠ [] →
  main argv environ gh
  = MkRun (before ++ [ApiGetLabels; no_invalid_note]) (Raises AttributeError).
Proof.
  intros Hreach Hinv Hval.
  rewrite (main_label_evaluation _ _ _ _ _ _ Hreach), Hinv.
  rewrite (decide_labels_raises i _ Hval). reflexivity.
Qed.

Lemma main_invalid_label_exits argv environ gh before i pr_labels :
  reaches_label_evaluation argv environ gh before i pr_labels →
  found_in (invalid_labels i) pr_labels ≠ [] →
  main argv environ gh
  = MkRun (before ++ [ApiGetLabels;
                      invalid_report (found_in (invalid_labels i) pr_labels);
                      exiting_note]) (Exits 1).
Proof.
  intros Hreach Hinv.
  rewrite (main_label_evaluation _ _ _ _ _ _ Hreach).
  rewrite (decide_labels_invalid i _ _ Hinv). reflexivity.
Qed.

(** ** Every run ends with status 1 *)

Ltac exits_leaf :=
  match goal with
  | |- exits_with_1 (if ?b then _ else _) => destruct b
  | |- exits_with_1 (getitem ?l ?k) =>
      unfold getitem; destruct (l !! k)
  | |- exits_with_1 (get_env_var ?e ?n ?b) =>
      unfold get_env_var; destruct (e !! n)
  | |- exits_with_1 (lift ?r) => destruct r
  end.

Lemma input_resolver_exits_with_1 argv environ :
  exits_with_1 (input_resolver argv environ).
Proof.
  unfold input_resolver.
  repeat (apply bind_exits_with_1; [|intros ?]);
    try exits_leaf; first [exact I | reflexivity].
Qed.

Lemma resolve_pr_number_exits_with_1 i :
  exits_with_1 (resolve_pr_number i).
Proof.
  destruct (decide (github_event_name i = "pull_request_target")) as [H|H].
  - rewrite (resolve_pr_number_target i H).
    destruct (Py.int _); [exact I|reflexivity].
  - rewrite (resolve_pr_number_ref i H).
    destruct (Py.search_pull_ref _) as [d|]; [destruct (Py.int d)|];
      first [exact I|reflexivity].
Qed.

Lemma prologue_exits_with_1 argv environ gh :
  exits_with_1 (prologue argv environ gh).
Proof.
  unfold prologue. apply bind_exits_with_1;
    [apply input_resolver_exits_with_1|intros i].
  apply bind_exits_with_1; [|intros pr].
  - unfold pull_request_locator.
    repeat (apply bind_exits_with_1; [|intros ?]);
      try exits_leaf;
      first [exact I | reflexivity | apply resolve_pr_number_exits_with_1].
  - apply bind_exits_with_1; [|intros ?; exact I].
    unfold fork_check. repeat exits_leaf; first [exact I|reflexivity].
Qed.

Lemma decide_labels_status i pr_valid_labels pr_invalid_labels :
  exit_status (decide_labels i pr_valid_labels pr_invalid_labels) = 1.
Proof.
  destruct pr_invalid_labels as [|bad rest].
  - destruct pr_valid_labels as [|good rest]; reflexivity.
  - reflexivity.
Qed.

(** X1. Whatever the command line, the environment and the API answers, the
    process ends with status 1: every way out of the script is a
    [sys.exit(1)] or an uncaught exception, and the [sys.exit(0)] of line
    188 is behind the AttributeError of line 155. *)
Lemma main_status_always_1 argv environ gh :
  exit_status (main argv environ gh) = 1.
Proof.
  unfold main. apply bind_exit_status_1;
    [apply prologue_exits_with_1|].
  intros [i pr]. unfold label_classifier.
  destruct (get_labels pr) as [e|pr_labels]; [reflexivity|].
  unfold mbind, Run_bind, emit, lift, mret, Run_ret. cbn [trace outcome app].
  rewrite classify_found.
  pose proof (decide_labels_status i (found_in (valid_labels i) pr_labels)
                (found_in (invalid_labels i) pr_labels)) as H.
  unfold exit_status in *. cbn [outcome].
  destruct (outcome (decide_labels _ _ _)); [discriminate H|exact H|reflexivity].
Qed.

Lemma main_status_in_label_evaluation argv environ gh before i pr_labels :
  reaches_label_evaluation argv environ gh before i pr_labels →
  exit_status (main argv environ gh) = 1.
Proof.
  intros Hreach. rewrite (main_label_evaluation _ _ _ _ _ _ Hreach).
  apply decide_labels_status.
Qed.

(** ** What a run that reaches label evaluation has been through *)

Lemma resolve_pr_number_Returns i t n :
  resolve_pr_number i = MkRun t (Returns n) → t = [].
Proof.
  destruct (decide (github_event_name i = "pull_request_target")) as [H|H].
  - rewrite (resolve_pr_number_target i H).
    destruct (Py.int _); [congruence|discriminate].
  - rewrite (resolve_pr_number_ref i H).
    destruct (Py.search_pull_ref _) as [d|]; [destruct (Py.int d)|];
      first [congruence|discriminate].
Qed.

Lemma fork_check_Returns i pr t u :
  fork_check i pr = MkRun t (Returns u) →
  t = [] ∧ (head_repo_full_name pr = base_repo_full_name pr
            ∨ github_event_name i = "pull_request_target").
Proof.
  unfold fork_check.
  destruct (String.eqb_spec (head_repo_full_name pr) (base_repo_full_name pr));
    cbn [negb].
  - intros [= <-]. auto.
  - destruct (String.eqb_spec (github_event_name i) "pull_request_target");
      cbn [negb]; [|discriminate].
    intros [= <-]. auto.
Qed.

Lemma locator_Returns gh i t pr :
  pull_request_locator gh i = MkRun t (Returns pr) →
  ∃ repo n,
    get_repo gh (token i) (repo_name i) = inr repo
    ∧ resolve_pr_number i = MkRun [] (Returns n)
    ∧ get_pull repo n = inr pr
    ∧ t = number_resolved i n.
Proof.
  intros H.
  destruct (get_repo gh (token i) (repo_name i)) as [e|repo] eqn:Hrepo.
  { unfold pull_request_locator in H. rewrite Hrepo in H.
    unfold mbind, Run_bind, emit, lift, raise in H.
    cbn [outcome trace] in H. discriminate H. }
  rewrite (locator_after_repo gh i repo Hrepo) in H.
  destruct (resolve_pr_number i) as [tn [n|c|e]] eqn:Hnum;
    try discriminate H.
  pose proof (resolve_pr_number_Returns i tn n Hnum) as ->.
  unfold mbind, Run_bind, lift, raise, mret, Run_ret in H.
  cbn [outcome trace app] in H.
  destruct (get_pull repo n) as [e|pr'] eqn:Hpull; cbn [outcome trace] in H;
    [discriminate H|].
  injection H as <- <-. exists repo, n. auto.
Qed.

Lemma prologue_Returns argv environ gh t i pr :
  prologue argv environ gh = MkRun t (Returns (i, pr)) →
  ∃ repo n,
    input_resolver argv environ = MkRun (echoed i) (Returns i)
    ∧ get_repo gh (token i) (repo_name i) = inr repo
    ∧ resolve_pr_number i = MkRun [] (Returns n)
    ∧ get_pull repo n = inr pr
    ∧ (head_repo_full_name pr = base_repo_full_name pr
       ∨ github_event_name i = "pull_request_target")
    ∧ t = echoed i ++ number_resolved i n.
Proof.
  unfold prologue. intros H.
  apply bind_Returns_inv in H as (t1 & i' & t2 & Hin & H & ->).
  apply bind_Returns_inv in H as (t3 & pr' & t4 & Hloc & H & ->).
  apply bind_Returns_inv in H as (t5 & u & t6 & Hfork & H & ->).
  injection H as <- <- <-.
  destruct (input_resolver_Returns _ _ _ _ Hin) as (_&_&_&_&_&_&_&_&_&_&_&_&_& Ht1).
  destruct (locator_Returns _ _ _ _ Hloc) as (repo & n & ? & ? & ? & ->).
  destruct (fork_check_Returns _ _ _ _ Hfork) as [-> ?].
  subst t1. exists repo, n. rewrite !app_nil_r. auto 10.
Qed.

(** Before label evaluation a run that gets there has printed nothing on
    the error stream. *)
Lemma reaches_quietly argv environ gh before i pr_labels :
  reaches_label_evaluation argv environ gh before i pr_labels →
  filter (λ e, is_stderr e = true) before = [].
Proof.
  intros (pr & Hpro & _).
  destruct (prologue_Returns _ _ _ _ _ _ Hpro) as (repo & n & _&_&_&_&_& ->).
  reflexivity.
Qed.

(** ** The label rules *)

(** C1 fails on the code. With "no parity" as the only label of the pull
    request, in the valid list, nothing in the invalid list, no conflict and
    no self-reference, the run notes that there is no invalid label and then
    dies on the AttributeError of line 155: the confirmation is not printed
    and the process ends with status 1, not 0. *)
Theorem C1_sole_no_parity_label_raises :
  let argv := sample_argv "no parity" "blocked" "7" in
  let environ := actions_env "org/widget" "refs/pull/7/merge" "pull_request" in
  let pr_labels := Build_Label <$> ["no parity"] in
  let gh := single_pr "org/widget" 7 "org/widget" "org/widget" ["no parity"] in
  let i := sample_inputs ["no parity"] ["blocked"] "7"
             "org/widget" "refs/pull/7/merge" "pull_request" in
  let before := sample_before ["no parity"] ["blocked"] "org/widget" 7 in
  reaches_label_evaluation argv environ gh before i pr_labels
  ∧ found_in (valid_labels i) pr_labels = ["no parity"]
  ∧ found_in (invalid_labels i) pr_labels = []
  ∧ ¬ no_parity_conflict (found_in (valid_labels i) pr_labels)
  ∧ ¬ self_referential (repo_name i) "no parity"
  ∧ main argv environ gh
    = MkRun (before ++ [ApiGetLabels; no_invalid_note]) (Raises AttributeError)
  ∧ exit_status (main argv environ gh) = 1
  ∧ (∀ e, e ∈ confirmation → e ∉ trace (main argv environ gh)).
Proof.
  intros argv environ pr_labels gh i before.
  assert (reaches_label_evaluation argv environ gh before i pr_labels) as Hreach.
  { exists (single_pull "org/widget" "org/widget" ["no parity"]).
    split; [vm_compute; reflexivity|reflexivity]. }
  assert (found_in (valid_labels i) pr_labels = ["no parity"]) as Hval
    by (vm_compute; reflexivity).
  assert (found_in (invalid_labels i) pr_labels = []) as Hinv
    by (vm_compute; reflexivity).
  assert (main argv environ gh
          = MkRun (before ++ [ApiGetLabels; no_invalid_note])
              (Raises AttributeError)) as Hmain.
  { apply (main_valid_label_raises _ _ _ _ _ _ Hreach Hinv).
    rewrite Hval. discriminate. }
  split; [exact Hreach|]. split; [exact Hval|]. split; [exact Hinv|].
  split.
  { rewrite Hval. intros [_ Hlen]. simpl in Hlen. lia. }
  split.
  { intros (w & Hlast & Hin). vm_compute in Hlast. injection Hlast as <-.
    vm_compute in Hin. discriminate Hin. }
  split; [exact Hmain|]. rewrite Hmain. split; [reflexivity|].
  intros e He Ht. vm_compute in He, Ht.
  repeat (apply elem_of_cons in He as [->|He];
          [repeat (apply elem_of_cons in Ht as [Ht|Ht]; [discriminate Ht|]);
           by apply elem_of_nil in Ht|]).
  by apply elem_of_nil in He.
Qed.

(** C2 fails on the code. With the valid labels "no parity" and "feature
    parity" both on the pull request and no invalid label, the conflict
    holds; the run notes that there is no invalid label and then dies on
    the AttributeError of line 155, in the first turn of the loop that is
    to find the conflict: the conflict line of line 160 is not printed and
    the [sys.exit(1)] of line 164 is not reached. *)
Theorem C2_conflicting_pair_raises :
  let argv := sample_argv "no parity, feature parity" "blocked" "7" in
  let environ := actions_env "org/widget" "refs/pull/7/merge" "pull_request" in
  let pr_labels := Build_Label <$> ["no parity"; "feature parity"] in
  let gh := single_pr "org/widget" 7 "org/widget" "org/widget"
              ["no parity"; "feature parity"] in
  let i := sample_inputs ["no parity"; "feature parity"] ["blocked"] "7"
             "org/widget" "refs/pull/7/merge" "pull_request" in
  let before :=
    sample_before ["no parity"; "feature parity"] ["blocked"] "org/widget" 7 in
  reaches_label_evaluation argv environ gh before i pr_labels
  ∧ found_in (valid_labels i) pr_labels = ["no parity"; "feature parity"]
  ∧ found_in (invalid_labels i) pr_labels = []
  ∧ no_parity_conflict (found_in (valid_labels i) pr_labels)
  ∧ parity_loop ["no parity"; "feature parity"]
      ["no parity"; "feature parity"] false
    = MkRun [] (Raises AttributeError)
  ∧ main argv environ gh
    = MkRun (before ++ [ApiGetLabels; no_invalid_note]) (Raises AttributeError)
  ∧ ¬ reports_conflict (main argv environ gh)
  ∧ outcome (main argv environ gh) ≠ Exits 1.
Proof.
  intros argv environ pr_labels gh i before.
  assert (reaches_label_evaluation argv environ gh before i pr_labels) as Hreach.
  { exists (single_pull "org/widget" "org/widget"
              ["no parity"; "feature parity"]).
    split; [vm_compute; reflexivity|reflexivity]. }
  assert (found_in (valid_labels i) pr_labels = ["no parity"; "feature parity"])
    as Hval by (vm_compute; reflexivity).
  assert (found_in (invalid_labels i) pr_labels = []) as Hinv
    by (vm_compute; reflexivity).
  assert (main argv environ gh
          = MkRun (before ++ [ApiGetLabels; no_invalid_note])
              (Raises AttributeError)) as Hmain.
  { apply (main_valid_label_raises _ _ _ _ _ _ Hreach Hinv).
    rewrite Hval. discriminate. }
  split; [exact Hreach|]. split; [exact Hval|]. split; [exact Hinv|].
  split.
  { rewrite Hval. split; [|simpl; lia].
    exists "no parity". split; [apply list_elem_of_here|reflexivity]. }
  split; [reflexivity|]. split; [exact Hmain|]. rewrite Hmain. split.
  - intros [v Hv]. vm_compute in Hv.
    repeat (apply elem_of_cons in Hv as [Hv|Hv]; [discriminate Hv|]).
    by apply elem_of_nil in Hv.
  - discriminate.
Qed.


(** C4. In a run that reaches label evaluation, if the name of some label
    of the pull request is in the invalid-label list, the run ends at once:
    after listing the labels it prints the invalid labels found on the error
    stream, then the exit note, and exits with status 1; no later rule
    prints anything. Every offending name is in the list that is printed,
    whatever other labels the pull request carries. *)
Theorem C4_invalid_label_fails argv environ gh before i pr_labels :
  reaches_label_evaluation argv environ gh before i pr_labels →
  (∃ label, label ∈ pr_labels ∧ name label ∈ invalid_labels i) →
  main argv environ gh
  = MkRun (before ++ [ApiGetLabels;
                      invalid_report (found_in (invalid_labels i) pr_labels);
                      exiting_note]) (Exits 1)
  ∧ exit_status (main argv environ gh) = 1
  ∧ (∀ label, label ∈ pr_labels → name label ∈ invalid_labels i →
       name label ∈ found_in (invalid_labels i) pr_labels).
Proof.
  intros Hreach (label & Hl & Hbad).
  assert (found_in (invalid_labels i) pr_labels ≠ []) as Hne.
  { intros Hnil. rewrite found_in_nil in Hnil. exact (Hnil label Hl Hbad). }
  rewrite (main_invalid_label_exits _ _ _ _ _ _ Hreach Hne).
  split; [reflexivity|]. split; [reflexivity|].
  intros l ? ?. apply found_in_elem. eauto.
Qed.

Lemma C4_invalid_label_fails_witness :
  let argv := sample_argv "a,b" "blocked" "7" in
  let environ := actions_env "org/widget" "refs/pull/7/merge" "pull_request" in
  let gh := single_pr "org/widget" 7 "org/widget" "org/widget" ["a"; "blocked"] in
  main argv environ gh
  = MkRun (sample_before ["a"; "b"] ["blocked"] "org/widget" 7
           ++ [ApiGetLabels; invalid_report ["blocked"]; exiting_note])
      (Exits 1).
Proof.
  intros argv environ gh.
  refine (proj1 (C4_invalid_label_fails argv environ gh
            (sample_before ["a"; "b"] ["blocked"] "org/widget" 7)
            (sample_inputs ["a"; "b"] ["blocked"] "7" "org/widget"
               "refs/pull/7/merge" "pull_request")
            (Build_Label <$> ["a"; "blocked"]) _ _)).
  - exists (single_pull "org/widget" "org/widget" ["a"; "blocked"]).
    split; [vm_compute; reflexivity|reflexivity].
  - exists (Build_Label "blocked"). split.
    + apply list_elem_of_further, list_elem_of_here.
    + apply list_elem_of_here.
Defined.

(** C5. In a run that reaches label evaluation with no label of the pull
    request in the invalid-label list, if no label of the pull request is
    in the valid-label list either, the run notes that there is no invalid
    label, prints on the error stream that one of the valid labels is
    required, prints the exit note and exits with status 1. *)
Theorem C5_valid_label_required argv environ gh before i pr_labels :
  reaches_label_evaluation argv environ gh before i pr_labels →
  (∀ label, label ∈ pr_labels → name label ∉ invalid_labels i) →
  (∀ label, label ∈ pr_labels → name label ∉ valid_labels i) →
  main argv environ gh
  = MkRun (before ++ [ApiGetLabels; no_invalid_note;
                      missing_report (valid_labels i); exiting_note]) (Exits 1)
  ∧ exit_status (main argv environ gh) = 1.
Proof.
  intros Hreach Hinv%found_in_nil Hval%found_in_nil.
  rewrite (main_label_evaluation _ _ _ _ _ _ Hreach), Hinv, Hval.
  rewrite decide_labels_missing. split; reflexivity.
Qed.

Lemma C5_valid_label_required_witness :
  let argv := sample_argv "a,b" "blocked" "7" in
  let environ := actions_env "org/widget" "refs/pull/7/merge" "pull_request" in
  let gh := single_pr "org/widget" 7 "org/widget" "org/widget" ["zzz"] in
  main argv environ gh
  = MkRun (sample_before ["a"; "b"] ["blocked"] "org/widget" 7
           ++ [ApiGetLabels; no_invalid_note; missing_report ["a"; "b"];
               exiting_note]) (Exits 1)
  ∧ exit_status (main argv environ gh) = 1.
Proof.
  intros argv environ gh.
  apply (C5_valid_label_required argv environ gh
           (sample_before ["a"; "b"] ["blocked"] "org/widget" 7)
           (sample_inputs ["a"; "b"] ["blocked"] "7" "org/widget"
              "refs/pull/7/merge" "pull_request")
           (Build_Label <$> ["zzz"])).
  - exists (single_pull "org/widget" "org/widget" ["zzz"]).
    split; [vm_compute; reflexivity|reflexivity].
  - intros label ->%list_elem_of_singleton. cbn.
    rewrite list_elem_of_singleton. discriminate.
  - intros label ->%list_elem_of_singleton. cbn.
    rewrite !elem_of_cons, elem_of_nil. intros [H|[H|[]]]; discriminate H.
Defined.

(** ** The script and its decision list *)

Lemma input_resolver_is_table argv environ :
  input_resolver argv environ = input_table argv environ.
Proof.
  destruct argv as [|prog [|tok [|a2 [|a3 [|a4 [|a5 [|a6 rest]]]]]]];
    try reflexivity.
  destruct tok as [|c tok]; [reflexivity|].
  unfold input_resolver, input_table.
  cbn [length Nat.eqb negb getitem lookup list_lookup Py.is_empty].
  destruct (environ !! "GITHUB_REPOSITORY") as [rn|] eqn:Hrn.
  2:{ rewrite (get_env_var_unset _ _ _ Hrn). reflexivity. }
  rewrite (get_env_var_set _ _ _ Hrn).
  destruct (environ !! "GITHUB_REF") as [rf|] eqn:Hrf.
  2:{ rewrite (get_env_var_unset _ _ _ Hrf). reflexivity. }
  rewrite (get_env_var_set _ _ _ Hrf).
  destruct (environ !! "GITHUB_EVENT_NAME") as [ev|] eqn:Hev.
  2:{ rewrite (get_env_var_unset _ _ _ Hev). reflexivity. }
  rewrite (get_env_var_set _ _ _ Hev). reflexivity.
Qed.

Lemma resolve_pr_number_is_table i :
  resolve_pr_number i
  = match pr_number_of i with
    | Some n => MkRun [] (Returns n)
    | None => number_failure i
    end.
Proof.
  unfold pr_number_of, number_failure.
  destruct (String.eqb_spec (github_event_name i) "pull_request_target")
    as [H|H].
  - rewrite (resolve_pr_number_target i H). reflexivity.
  - rewrite (resolve_pr_number_ref i H).
    destruct (Py.search_pull_ref (github_ref i)) as [d|];
      [destruct (Py.int d)|]; reflexivity.
Qed.

Lemma decide_labels_is_table i pr_labels :
  decide_labels i (found_in (valid_labels i) pr_labels)
    (found_in (invalid_labels i) pr_labels)
  = label_table i pr_labels.
Proof.
  unfold label_table.
  destruct (found_in (invalid_labels i) pr_labels) as [|bad rest];
    [|reflexivity].
  destruct (found_in (valid_labels i) pr_labels) as [|good rest]; reflexivity.
Qed.

Lemma script_is_table gh i :
  (pr ← pull_request_locator gh i; fork_check i pr;; label_classifier i pr)
  = script_table gh i.
Proof.
  unfold script_table.
  destruct (get_repo gh (token i) (repo_name i)) as [e|repo] eqn:Hrepo.
  { unfold pull_request_locator. rewrite Hrepo. reflexivity. }
  rewrite (locator_after_repo gh i repo Hrepo), resolve_pr_number_is_table.
  destruct (pr_number_of i) as [n|].
  2:{ unfold number_failure.
      destruct (String.eqb _ _); [reflexivity|].
      destruct (Py.search_pull_ref _); reflexivity. }
  unfold mbind at 1 2 3 4 5. unfold Run_bind, lift, mret, Run_ret, raise.
  cbn [trace outcome app].
  destruct (get_pull repo n) as [e|pr]; cbn [trace outcome app];
    [reflexivity|].
  unfold fork_check, is_fork.
  destruct (negb (String.eqb (head_repo_full_name pr) (base_repo_full_name pr)));
    cbn [andb].
  - destruct (negb (String.eqb (github_event_name i) "pull_request_target"));
      [reflexivity|].
    unfold label_classifier, mbind, Run_bind, emit, lift, mret, Run_ret, raise.
    cbn [trace outcome app].
    destruct (get_labels pr) as [e|pr_labels]; cbn [trace outcome app];
      [reflexivity|].
    rewrite classify_found, decide_labels_is_table. reflexivity.
  - unfold label_classifier, mbind, Run_bind, emit, lift, mret, Run_ret, raise.
    cbn [trace outcome app].
    destruct (get_labels pr) as [e|pr_labels]; cbn [trace outcome app];
      [reflexivity|].
    rewrite classify_found, decide_labels_is_table. reflexivity.
Qed.

(** The monadic script and the decision list are the same run. *)
Lemma main_is_table argv environ gh :
  main argv environ gh = run_table argv environ gh.
Proof.
  unfold main, prologue, run_table.
  rewrite <- input_resolver_is_table.
  destruct (input_resolver argv environ) as [t [i|c|e]]; try reflexivity.
  change (MkRun t (Returns i) ≫= script_table gh)
    with (MkRun (t ++ trace (script_table gh i)) (outcome (script_table gh i))).
  rewrite <- script_is_table.
  unfold mbind, Run_bind, mret, Run_ret. cbn [trace outcome].
  destruct (pull_request_locator gh i) as [t1 [pr|c|e]]; cbn [trace outcome];
    [|rewrite ?app_nil_r; reflexivity..].
  destruct (fork_check i pr) as [t2 [u|c|e]]; cbn [trace outcome];
    rewrite ?app_nil_r, <- ?app_assoc; reflexivity.
Qed.

(** Every run is one of thirteen: to show something of all runs, show it
    of each. *)
Lemma main_cases (P : Run unit → Prop) argv environ gh :
  P (MkRun [argc_error] (Exits 1)) →
  P (MkRun [token_error] (Exits 1)) →
  (∀ a2 a3 v, v ∈ required_env_vars →
     P (MkRun (echo_lines a2 a3 ++ [env_error v]) (Exits 1))) →
  (∀ i e, get_repo gh (token i) (repo_name i) = inl e →
     P (MkRun (echoed i ++ [ApiGetRepo (token i) (repo_name i)]) (Raises e))) →
  (∀ i t, t = bad_number_report ∨ t = no_ref_report (github_ref i) →
     P (MkRun (echoed i ++ [ApiGetRepo (token i) (repo_name i); t]) (Exits 1))) →
  (∀ i d,
     github_event_name i ≠ "pull_request_target" →
     Py.search_pull_ref (github_ref i) = Some d →
     (Py.int_max_str_digits < String.length d)%nat →
     P (MkRun (echoed i ++ [ApiGetRepo (token i) (repo_name i)])
          (Raises ValueError))) →
  (∀ i repo n e,
     get_repo gh (token i) (repo_name i) = inr repo → get_pull repo n = inl e →
     P (MkRun (echoed i ++ number_resolved i n) (Raises e))) →
  (∀ i n,
     P (MkRun (echoed i ++ number_resolved i n ++ [fork_report]) (Exits 1))) →
  (∀ i repo n pr e,
     get_repo gh (token i) (repo_name i) = inr repo → get_pull repo n = inr pr →
     get_labels pr = inl e →
     P (MkRun (echoed i ++ number_resolved i n ++ [ApiGetLabels]) (Raises e))) →
  (∀ i n bad,
     P (MkRun (echoed i ++ number_resolved i n
               ++ [ApiGetLabels; invalid_report bad; exiting_note]) (Exits 1))) →
  (∀ i n,
     P (MkRun (echoed i ++ number_resolved i n
               ++ [ApiGetLabels; no_invalid_note]) (Raises AttributeError))) →
  (∀ i n,
     P (MkRun (echoed i ++ number_resolved i n
               ++ [ApiGetLabels; no_invalid_note;
                   missing_report (valid_labels i); exiting_note]) (Exits 1))) →
  P (main argv environ gh).
Proof.
  intros Hargc Htok Henv Hrepo Hnum Hlong Hpull Hfork Hlabels Hbad Hcrash
    Hmiss.
  rewrite main_is_table. unfold run_table, input_table.
  destruct argv as [|prog [|tok [|a2 [|a3 [|a4 [|a5 [|a6 rest]]]]]]];
    try exact Hargc.
  destruct (Py.is_empty tok); [exact Htok|].
  destruct (environ !! "GITHUB_REPOSITORY") as [rn|];
    [|apply Henv, list_elem_of_here].
  destruct (environ !! "GITHUB_REF") as [rf|];
    [|apply Henv, list_elem_of_further, list_elem_of_here].
  destruct (environ !! "GITHUB_EVENT_NAME") as [ev|];
    [|apply Henv; do 2 apply list_elem_of_further; apply list_elem_of_here].
  match goal with |- P (_ ≫= script_table gh) => idtac end.
  unfold mbind, Run_bind. cbn [trace outcome].
  set (i := {| token := tok; valid_labels := parse_labels a2;
               invalid_labels := parse_labels a3; pr_number_str := a4;
               repo_name := rn; github_ref := rf; github_event_name := ev |}).
  change (echo_lines a2 a3) with (echoed i).
  unfold script_table.
  destruct (get_repo gh (token i) (repo_name i)) as [e|repo] eqn:Hr.
  { apply (Hrepo i e Hr). }
  destruct (pr_number_of i) as [n|] eqn:Hn.
  2:{ unfold pr_number_of in Hn. unfold number_failure.
      destruct (String.eqb_spec (github_event_name i) "pull_request_target")
        as [Hev|Hev]; [apply Hnum; auto|].
      destruct (Py.search_pull_ref (github_ref i)) as [d|] eqn:Hs;
        [|apply Hnum; auto].
      apply (Hlong i d Hev Hs).
      destruct (search_pull_ref_sound _ _ Hs) as (_ & _ & _ & Hne & Hd).
      destruct (decide (String.length d ≤ Py.int_max_str_digits)%nat)
        as [Hlen|Hlen]; [|lia].
      rewrite (int_of_digits d Hne Hd Hlen) in Hn. discriminate Hn. }
  destruct (get_pull repo n) as [e|pr] eqn:Hp.
  { apply (Hpull i repo n e Hr Hp). }
  destruct (is_fork pr && _).
  { apply Hfork. }
  destruct (get_labels pr) as [e|pr_labels] eqn:Hl.
  { apply (Hlabels i repo n pr e Hr Hp Hl). }
  unfold label_table.
  destruct (truthy (found_in (invalid_labels i) pr_labels)); [apply Hbad|].
  destruct (truthy (found_in (valid_labels i) pr_labels));
    [apply Hcrash|apply Hmiss].
Qed.

(** ** What no run does *)

Lemma main_trace_early argv environ gh :
  Forall (λ e, is_late_line e = false) (trace (main argv environ gh)).
Proof.
  apply main_cases; intros; cbn [trace];
    repeat match goal with H : _ ∨ _ |- _ => destruct H as [->| ->] end;
    repeat (apply Forall_app; split); repeat constructor.
Qed.

(** X2. No run prints the conflict line of line 160, the self-reference
    line of line 173, the list of valid labels of line 179 or the two
    confirmation lines of lines 185 and 187. *)
Theorem late_lines_never_printed argv environ gh :
  (∀ v, conflict_report v ∉ trace (main argv environ gh))
  ∧ (∀ l, forbidden_report l ∉ trace (main argv environ gh))
  ∧ (∀ v, valid_note v ∉ trace (main argv environ gh))
  ∧ (∀ e, e ∈ confirmation → e ∉ trace (main argv environ gh)).
Proof.
  pose proof (main_trace_early argv environ gh) as Hearly.
  rewrite Forall_forall in Hearly.
  repeat split.
  - intros v Hin. discriminate (Hearly _ Hin).
  - intros l Hin. discriminate (Hearly _ Hin).
  - intros v Hin. discriminate (Hearly _ Hin).
  - intros e He Hin. specialize (Hearly _ Hin).
    unfold confirmation in He. rewrite !elem_of_cons, elem_of_nil in He.
    destruct He as [->|[->|[]]]; discriminate Hearly.
Qed.

(** X3. A run that ends in [sys.exit] exits with 1 and has printed exactly
    one line on the error stream; a run that ends in an exception has
    printed none itself (the traceback is the interpreter's); no run reaches
    the end of the script. *)
Theorem one_error_line_per_exit argv environ gh :
  match outcome (main argv environ gh) with
  | Exits c =>
      c = 1 ∧ ∃ line, stderr_lines (main argv environ gh) = [Print Stderr line]
  | Raises _ => stderr_lines (main argv environ gh) = []
  | Returns _ => False
  end.
Proof.
  apply main_cases; intros; cbn [outcome]; unfold stderr_lines; cbn [trace];
    repeat match goal with H : _ ∨ _ |- _ => destruct H as [->| ->] end;
    rewrite ?filter_app; try reflexivity; (split; [reflexivity|]);
    eexists; reflexivity.
Qed.

(** X4. The PyGithub calls of a run are, in this order and at most once
    each: get the repository, get the pull request, list its labels; a run
    stops anywhere along that list. *)
Theorem api_calls_in_order argv environ gh :
  ∃ tok full_name n,
    api_calls (main argv environ gh)
      `prefix_of` [ApiGetRepo tok full_name; ApiGetPull n; ApiGetLabels].
Proof.
  apply main_cases; intros; unfold api_calls; cbn [trace];
    repeat match goal with H : _ ∨ _ |- _ => destruct H as [->| ->] end;
    rewrite ?filter_app;
    first
      [ exists "", "", 0; eexists; reflexivity
      | exists (token i), (repo_name i), 0; eexists; reflexivity
      | exists (token i), (repo_name i), n; eexists; reflexivity ].
Qed.


(** ** What a run does not depend on *)

Ltac open_table :=
  rewrite !main_is_table; unfold run_table, input_table;
  cbn [Py.is_empty];
  repeat match goal with
    | |- context [if Py.is_empty ?t then _ else _] =>
        destruct (Py.is_empty t); try reflexivity
    | |- context [match ?m !! ?k with _ => _ end] =>
        destruct (m !! k) eqn:?; try (split; reflexivity); try reflexivity
    end;
  unfold mbind, Run_bind; cbn [trace outcome];
  unfold script_table, pr_number_of, number_failure, number_resolved,
    label_table;
  cbn [token valid_labels invalid_labels pr_number_str repo_name github_ref
       github_event_name].

(** X6. The token goes to the API and nowhere else: two invocations that
    differ only in their non-empty token, against an API that answers both
    tokens alike, print the same lines and end the same way. *)
Theorem token_only_reaches_api prog tok tok' a2 a3 a4 a5 environ gh :
  tok ≠ "" → tok' ≠ "" →
  (∀ full_name, get_repo gh tok full_name = get_repo gh tok' full_name) →
  printed (main [prog; tok; a2; a3; a4; a5] environ gh)
  = printed (main [prog; tok'; a2; a3; a4; a5] environ gh)
  ∧ outcome (main [prog; tok; a2; a3; a4; a5] environ gh)
    = outcome (main [prog; tok'; a2; a3; a4; a5] environ gh).
Proof.
  intros Htok Htok' Hsame.
  destruct tok as [|c tok]; [congruence|].
  destruct tok' as [|c' tok']; [congruence|].
  open_table. rewrite Hsame.
  repeat match goal with
    | |- context [match ?x with _ => _ end] => destruct x
    | |- context [if ?b then _ else _] => destruct b
    end;
    unfold printed; cbn [trace outcome]; rewrite ?filter_app;
    split; reflexivity.
Qed.

Lemma token_only_reaches_api_witness :
  let environ := actions_env "org/widget" "refs/pull/7/merge" "pull_request" in
  let gh := single_pr "org/widget" 7 "org/widget" "org/widget" ["a"] in
  printed (main ["prog"; "ghp_one"; "a"; "b"; "7"; "x"] environ gh)
  = printed (main ["prog"; "ghp_two"; "a"; "b"; "7"; "x"] environ gh)
  ∧ outcome (main ["prog"; "ghp_one"; "a"; "b"; "7"; "x"] environ gh)
    = outcome (main ["prog"; "ghp_two"; "a"; "b"; "7"; "x"] environ gh).
Proof.
  intros environ gh.
  apply (token_only_reaches_api "prog" "ghp_one" "ghp_two" "a" "b" "7" "x"
           environ gh).
  - discriminate.
  - discriminate.
  - intros full_name. reflexivity.
Defined.

(** X7. Unless the event is pull_request_target, the fourth argument is not
    used, no more than the program name and the fifth argument: invocations
    that agree on the token and the two label lists are the same run. *)
Theorem hint_unused_outside_target
    prog prog' tok a2 a3 a4 a4' a5 a5' environ gh :
  environ !! "GITHUB_EVENT_NAME" ≠ Some "pull_request_target" →
  main [prog; tok; a2; a3; a4; a5] environ gh
  = main [prog'; tok; a2; a3; a4'; a5'] environ gh.
Proof.
  intros Hev. open_table.
  match goal with
  | H : environ !! "GITHUB_EVENT_NAME" = Some ?ev |- _ =>
      assert (String.eqb ev "pull_request_target" = false) as ->
        by (apply String.eqb_neq; congruence)
  end.
  reflexivity.
Qed.

Lemma hint_unused_outside_target_witness :
  let environ := actions_env "org/widget" "refs/pull/7/merge" "pull_request" in
  let gh := single_pr "org/widget" 7 "org/widget" "org/widget" ["a"] in
  main ["prog"; "tok"; "a"; "b"; "7"; "x"] environ gh
  = main ["other"; "tok"; "a"; "b"; "not a number"; "y"] environ gh.
Proof.
  intros environ gh.
  apply (hint_unused_outside_target "prog" "other" "tok" "a" "b" "7"
           "not a number" "x" "y" environ gh).
  vm_compute. discriminate.
Defined.

(** X8. Under pull_request_target the fourth argument is used through
    [int] only, and the value of GITHUB_REF, which has to be set, is not
    used at all: hints that [int] cannot tell apart, with any two values of
    GITHUB_REF, give the same run. In particular the error line for a bad
    hint does not show the hint. *)
Theorem target_reads_hint_through_int
    prog tok a2 a3 a4 a4' a5 environ rf rf' gh :
  environ !! "GITHUB_EVENT_NAME" = Some "pull_request_target" →
  Py.int a4 = Py.int a4' →
  main [prog; tok; a2; a3; a4; a5] (<["GITHUB_REF" := rf]> environ) gh
  = main [prog; tok; a2; a3; a4'; a5] (<["GITHUB_REF" := rf']> environ) gh.
Proof.
  intros Hev Hint.
  rewrite !main_is_table. unfold run_table, input_table.
  rewrite !lookup_insert_eq, !lookup_insert_ne, Hev by discriminate.
  destruct (Py.is_empty tok); [reflexivity|].
  destruct (environ !! "GITHUB_REPOSITORY") as [rn|]; [|reflexivity].
  unfold mbind, Run_bind; cbn [trace outcome].
  unfold script_table, pr_number_of, number_failure, number_resolved,
    label_table.
  cbn [token valid_labels invalid_labels pr_number_str repo_name github_ref
       github_event_name String.eqb Ascii.eqb Bool.eqb andb].
  rewrite Hint. reflexivity.
Qed.

Lemma target_reads_hint_through_int_witness :
  let environ :=
    actions_env "org/widget" "refs/pull/7/merge" "pull_request_target" in
  let gh := single_pr "org/widget" 7 "org/widget" "org/widget" ["a"] in
  main ["prog"; "tok"; "a"; "b"; " 7 "; "x"]
    (<["GITHUB_REF" := "refs/heads/main"]> environ) gh
  = main ["prog"; "tok"; "a"; "b"; "0_7"; "x"]
      (<["GITHUB_REF" := ""]> environ) gh.
Proof.
  intros environ gh.
  apply (target_reads_hint_through_int "prog" "tok" "a" "b" " 7 " "0_7" "x"
           environ "refs/heads/main" "" gh).
  - vm_compute. reflexivity.
  - reflexivity.
Defined.

(** ** The label lists of the command line (lines 54 and 58) *)

Lemma split_on_nonempty sep s : Py.split_on sep s ≠ [].
Proof.
  destruct s as [|c r]; simpl; [discriminate|].
  destruct (Ascii.eqb c sep); [discriminate|].
  destruct (Py.split_on sep r); discriminate.
Qed.

Lemma split_on_length sep s :
  length (Py.split_on sep s) = S (count_char sep s).
Proof.
  induction s as [|c r IH]; simpl; [reflexivity|].
  destruct (Ascii.eqb c sep); simpl; [by rewrite IH|].
  destruct (Py.split_on sep r) as [|w ws]; [discriminate IH|exact IH].
Qed.

Lemma split_on_pieces sep s :
  Forall (λ w, count_char sep w = 0%nat) (Py.split_on sep s).
Proof.
  induction s as [|c r IH]; simpl; [repeat constructor|].
  destruct (Ascii.eqb c sep) eqn:Hc; [constructor; [reflexivity|exact IH]|].
  destruct (Py.split_on sep r) as [|w ws]; [repeat constructor; simpl; by rewrite Hc|].
  inversion IH as [|? ? Hw Hws]; subst.
  constructor; [simpl; by rewrite Hc, Hw|exact Hws].
Qed.

Lemma lstrip_head sp s c r :
  Py.lstrip_with sp s = String c r → sp c = false.
Proof.
  induction s as [|a s IH]; simpl; [discriminate|].
  destruct (sp a) eqn:Ha; [exact IH|]. intros [= <- _]. exact Ha.
Qed.

Lemma rstrip_idempotent sp s :
  Py.rstrip_with sp (Py.rstrip_with sp s) = Py.rstrip_with sp s.
Proof.
  induction s as [|c r IH]; simpl; [reflexivity|].
  destruct (sp c && Py.is_empty (Py.rstrip_with sp r)) eqn:Hc;
    [reflexivity|].
  simpl. rewrite IH, Hc. reflexivity.
Qed.

Lemma rstrip_keeps_head sp c r :
  sp c = false →
  Py.rstrip_with sp (String c r) = String c (Py.rstrip_with sp r).
Proof. intros H. simpl. by rewrite H. Qed.

Lemma strip_idempotent s : Py.strip (Py.strip s) = Py.strip s.
Proof.
  unfold Py.strip.
  destruct (Py.lstrip_with Py.isspace s) as [|c r] eqn:Hl; [reflexivity|].
  pose proof (lstrip_head _ _ _ _ Hl) as Hc.
  rewrite (rstrip_keeps_head _ c r Hc).
  cbn [Py.lstrip_with]. rewrite Hc.
  rewrite (rstrip_keeps_head _ c _ Hc), rstrip_idempotent. reflexivity.
Qed.

Lemma count_char_lstrip c sp s :
  (count_char c (Py.lstrip_with sp s) ≤ count_char c s)%nat.
Proof.
  induction s as [|a s IH]; simpl; [lia|].
  destruct (sp a); simpl; lia.
Qed.

Lemma count_char_rstrip c sp s :
  (count_char c (Py.rstrip_with sp s) ≤ count_char c s)%nat.
Proof.
  induction s as [|a s IH]; simpl; [lia|].
  destruct (sp a && _); simpl; lia.
Qed.

Lemma parse_labels_entries arg l :
  l ∈ parse_labels arg → stripped l ∧ count_char "," l = 0%nat.
Proof.
  unfold parse_labels. intros (w & -> & Hw)%list_elem_of_fmap. split.
  - apply strip_idempotent.
  - pose proof (split_on_pieces "," arg) as Hall.
    rewrite Forall_forall in Hall. specialize (Hall w Hw).
    pose proof (count_char_rstrip "," Py.isspace
                  (Py.lstrip_with Py.isspace w)).
    pose proof (count_char_lstrip "," Py.isspace w).
    unfold Py.strip. lia.
Qed.

(** X9. The pieces of [arg.split(',')] put back together with commas are
    [arg]: the split loses nothing. *)
Theorem split_on_join sep s : join_on sep (Py.split_on sep s) = s.
Proof.
  induction s as [|c r IH]; simpl; [reflexivity|].
  destruct (Ascii.eqb_spec c sep) as [->|Hne].
  - destruct (Py.split_on sep r) as [|w ws] eqn:Hr;
      [by apply split_on_nonempty in Hr|].
    change (join_on sep ("" :: w :: ws))
      with ("" +:+ String sep (join_on sep (w :: ws))).
    by rewrite append_empty, IH.
  - destruct (Py.split_on sep r) as [|w ws] eqn:Hr;
      [by apply split_on_nonempty in Hr|].
    destruct ws as [|w' ws].
    + change (String c w = String c r). f_equal. exact IH.
    + change (String c w +:+ String sep (join_on sep (w' :: ws)) = String c r).
      rewrite append_String. f_equal. exact IH.
Qed.

(** X10. The two label lists a run works with are never empty (one entry
    more than there are commas in the argument), and their entries have no
    white space at either end and no comma. *)
Theorem parsed_label_lists argv environ t i :
  input_resolver argv environ = MkRun t (Returns i) →
  ∃ arg2 arg3,
    argv !! 2%nat = Some arg2 ∧ argv !! 3%nat = Some arg3
    ∧ length (valid_labels i) = S (count_char "," arg2)
    ∧ length (invalid_labels i) = S (count_char "," arg3)
    ∧ (∀ l, l ∈ valid_labels i ∨ l ∈ invalid_labels i →
         stripped l ∧ count_char "," l = 0%nat).
Proof.
  intros H.
  destruct (input_resolver_Returns _ _ _ _ H)
    as (prog & a2 & a3 & a4 & a5 & -> & _ & Hv & Hi & _).
  exists a2, a3. rewrite Hv, Hi, !length_fmap, !split_on_length.
  do 4 (split; [reflexivity|]).
  intros l [Hl|Hl]; apply parse_labels_entries in Hl; exact Hl.
Qed.

Lemma parsed_label_lists_witness :
  let i := sample_inputs ["a"; "b c"; ""] ["blocked"] "7" "org/widget"
             "refs/pull/7/merge" "pull_request" in
  ∃ arg2 arg3,
    sample_argv " a,b c , " "blocked" "7" !! 2%nat = Some arg2
    ∧ sample_argv " a,b c , " "blocked" "7" !! 3%nat = Some arg3
    ∧ length (valid_labels i) = S (count_char "," arg2)
    ∧ length (invalid_labels i) = S (count_char "," arg3)
    ∧ (∀ l, l ∈ valid_labels i ∨ l ∈ invalid_labels i →
         stripped l ∧ count_char "," l = 0%nat).
Proof.
  intros i.
  apply (parsed_label_lists (sample_argv " a,b c , " "blocked" "7")
           (actions_env "org/widget" "refs/pull/7/merge" "pull_request")
           (echoed i) i).
  vm_compute. reflexivity.
Defined.

(** X11. A label of the pull request whose name has white space at either
    end, or a comma in it, is in neither list of labels found, whatever the
    two arguments are. *)
Theorem odd_names_never_found argv environ t i pr_labels label :
  input_resolver argv environ = MkRun t (Returns i) →
  (¬ stripped (name label)) ∨ count_char "," (name label) ≠ 0%nat →
  (name label ∉ found_in (valid_labels i) pr_labels)
  ∧ (name label ∉ found_in (invalid_labels i) pr_labels).
Proof.
  intros H Hodd.
  destruct (input_resolver_Returns _ _ _ _ H)
    as (prog & a2 & a3 & a4 & a5 & _ & _ & Hv & Hi & _).
  split; intros [Hin _]%found_in_elem;
    [rewrite Hv in Hin|rewrite Hi in Hin];
    apply parse_labels_entries in Hin; tauto.
Qed.

Lemma odd_names_never_found_witness :
  let i := sample_inputs ["a"; "b"] ["blocked"] "7" "org/widget"
             "refs/pull/7/merge" "pull_request" in
  let pr_labels := Build_Label <$> ["a "; "a,b"; "a"] in
  ("a " ∉ found_in (valid_labels i) pr_labels)
  ∧ ("a " ∉ found_in (invalid_labels i) pr_labels).
Proof.
  intros i pr_labels.
  apply (odd_names_never_found (sample_argv "a, b" "blocked" "7")
           (actions_env "org/widget" "refs/pull/7/merge" "pull_request")
           (echoed i) i pr_labels (Build_Label "a ")).
  - vm_compute. reflexivity.
  - left. unfold stripped. vm_compute. discriminate.
Defined.

(** ** Which error a run reports (lines 42-67) *)

(** X12. The input checks are made in a fixed order and the first one that
    fails is the only one reported: a wrong number of arguments before
    anything else and without echoing the label lists; then an empty token,
    without looking at the environment; then, after the two label lists are
    echoed, the first variable of GITHUB_REPOSITORY, GITHUB_REF,
    GITHUB_EVENT_NAME that is not set. *)
Theorem first_failure_reported environ gh :
  (∀ argv, length argv ≠ 6%nat →
     main argv environ gh = MkRun [argc_error] (Exits 1))
  ∧ (∀ prog a2 a3 a4 a5,
       main [prog; ""; a2; a3; a4; a5] environ gh
       = MkRun [token_error] (Exits 1))
  ∧ (∀ prog tok a2 a3 a4 a5 before v after,
       tok ≠ "" →
       required_env_vars = before ++ v :: after →
       (∀ u, u ∈ before → is_Some (environ !! u)) →
       environ !! v = None →
       main [prog; tok; a2; a3; a4; a5] environ gh
       = MkRun (echo_lines a2 a3 ++ [env_error v]) (Exits 1)).
Proof.
  split; [|split].
  - intros argv Hlen. rewrite main_is_table. unfold run_table, input_table.
    destruct argv as [|prog [|tok [|a2 [|a3 [|a4 [|a5 [|a6 rest]]]]]]];
      try reflexivity.
    destruct Hlen. reflexivity.
  - intros. rewrite main_is_table. reflexivity.
  - intros prog tok a2 a3 a4 a5 before v after Htok Hlist Hset Hv.
    rewrite main_is_table. unfold run_table, input_table.
    destruct tok as [|c tok]; [congruence|]. cbn [Py.is_empty].
    unfold required_env_vars in Hlist.
    destruct before as [|u1 [|u2 [|u3 before]]]; simplify_eq/=.
    + rewrite Hv. reflexivity.
    + destruct (Hset "GITHUB_REPOSITORY") as [rn ->];
        [apply list_elem_of_here|].
      rewrite Hv. reflexivity.
    + destruct (Hset "GITHUB_REPOSITORY") as [rn ->];
        [apply list_elem_of_here|].
      destruct (Hset "GITHUB_REF") as [rf ->];
        [apply list_elem_of_further, list_elem_of_here|].
      rewrite Hv. reflexivity.
    + destruct before; discriminate.
Qed.

Lemma first_failure_reported_witness :
  let environ : gmap string string := {["GITHUB_REPOSITORY" := "org/widget"]} in
  let gh := single_pr "org/widget" 7 "org/widget" "org/widget" ["a"] in
  main (sample_argv "a" "b" "7") environ gh
  = MkRun (echo_lines "a" "b" ++ [env_error "GITHUB_REF"]) (Exits 1).
Proof.
  intros environ gh.
  destruct (first_failure_reported environ gh) as (_ & _ & Henv).
  apply (Henv "verify_pr_lables.py" "ghp_token" "a" "b" "7" "unused"
           ["GITHUB_REPOSITORY"] "GITHUB_REF" ["GITHUB_EVENT_NAME"]).
  - discriminate.
  - reflexivity.
  - intros u ->%list_elem_of_singleton. vm_compute. eauto.
  - vm_compute. reflexivity.
Defined.

(** ** More on the pull-request number (lines 76-94) *)

Lemma int_of_negative d :
  d ≠ "" → all_digits d = true →
  (String.length d ≤ Py.int_max_str_digits)%nat →
  Py.int ("-" +:+ d) = Some (- decimal d).
Proof.
  intros Hne Hd Hlen. unfold Py.int, decimal.
  rewrite append_String, append_empty.
  cbn [Py.lstrip_with]. change (Py.int_space "-") with false. cbn iota.
  rewrite (rstrip_keeps_head Py.int_space "-" d eq_refl), (rstrip_digits d Hd).
  unfold Py.int_body. rewrite (count_digits_all d Hd).
  rewrite (proj2 (Nat.leb_le _ _) Hlen).
  rewrite (int_digits_all 0 false d Hd (or_introl Hne)). reflexivity.
Qed.

(** X13. Under pull_request_target a hint made of a minus sign and at most
    4300 digits passes the check of lines 78-85: the run prints the
    negative number and asks the API for the pull request of that number. *)
Theorem negative_hint_accepted argv environ gh t i repo d :
  input_resolver argv environ = MkRun t (Returns i) →
  get_repo gh (token i) (repo_name i) = inr repo →
  github_event_name i = "pull_request_target" →
  d ≠ "" → all_digits d = true →
  (String.length d ≤ Py.int_max_str_digits)%nat →
  pr_number_str i = "-" +:+ d →
  - decimal d ≤ 0
  ∧ (t ++ number_resolved i (- decimal d))
      `prefix_of` trace (main argv environ gh).
Proof.
  intros Hin Hrepo Hev Hne Hd Hlen Hhint. split.
  - pose proof (decimal_from_nonneg 0 d ltac:(lia) Hd). unfold decimal. lia.
  - apply (main_number_resolved _ _ _ _ _ repo _ Hin Hrepo).
    rewrite (resolve_pr_number_target i Hev), Hhint,
      (int_of_negative d Hne Hd Hlen).
    reflexivity.
Qed.

Lemma negative_hint_accepted_witness :
  let argv := sample_argv "a" "b" "-5" in
  let environ :=
    actions_env "org/widget" "refs/pull/7/merge" "pull_request_target" in
  let gh := single_pr "org/widget" 7 "org/widget" "org/widget" ["a"] in
  let i := sample_inputs ["a"] ["b"] "-5" "org/widget" "refs/pull/7/merge"
             "pull_request_target" in
  - decimal "5" ≤ 0
  ∧ (echoed i ++ number_resolved i (- decimal "5"))
      `prefix_of` trace (main argv environ gh).
Proof.
  intros argv environ gh i.
  apply (negative_hint_accepted argv environ gh (echoed i) i
           (single_repo 7 "org/widget" "org/widget" ["a"]) "5").
  - vm_compute. reflexivity.
  - reflexivity.
  - reflexivity.
  - discriminate.
  - reflexivity.
  - apply Nat.leb_le. reflexivity.
  - reflexivity.
Defined.

(** X14. Outside pull_request_target, when GITHUB_REF starts with
    refs/pull/<digits>/merge and the digits are at most 4300, the number is
    the decimal value of those digits, leading zeros and anything after
    "merge" notwithstanding. *)
Theorem number_of_merge_ref argv environ gh t i repo d rest :
  input_resolver argv environ = MkRun t (Returns i) →
  get_repo gh (token i) (repo_name i) = inr repo →
  github_event_name i ≠ "pull_request_target" →
  d ≠ "" → all_digits d = true →
  (String.length d ≤ Py.int_max_str_digits)%nat →
  github_ref i = "refs/pull/" +:+ d +:+ "/merge" +:+ rest →
  (t ++ number_resolved i (decimal d)) `prefix_of` trace (main argv environ gh).
Proof.
  intros Hin Hrepo Hev Hne Hd Hlen Href.
  apply (main_number_resolved _ _ _ _ _ repo _ Hin Hrepo).
  rewrite (resolve_pr_number_ref i Hev), Href.
  rewrite (search_pull_ref_here _ d (match_pull_ref_complete d rest Hne Hd)).
  rewrite (int_of_digits d Hne Hd Hlen). reflexivity.
Qed.

Lemma number_of_merge_ref_witness :
  let argv := sample_argv "a" "b" "" in
  let environ := actions_env "org/widget" "refs/pull/0042/merged" "push" in
  let gh := single_pr "org/widget" 42 "org/widget" "org/widget" ["a"] in
  let i := sample_inputs ["a"] ["b"] "" "org/widget" "refs/pull/0042/merged"
             "push" in
  (echoed i ++ number_resolved i 42) `prefix_of` trace (main argv environ gh).
Proof.
  intros argv environ gh i.
  apply (number_of_merge_ref argv environ gh (echoed i) i
           (single_repo 42 "org/widget" "org/widget" ["a"]) "0042" "d").
  - vm_compute. reflexivity.
  - reflexivity.
  - discriminate.
  - discriminate.
  - reflexivity.
  - apply Nat.leb_le. reflexivity.
  - reflexivity.
Defined.

Lemma occurs_at_here s d : occurs_at s "" d → Py.match_pull_ref s = Some d.
Proof.
  intros (post & -> & Hne & Hd). rewrite append_empty.
  apply match_pull_ref_complete; assumption.
Qed.

Lemma occurs_at_tail c r pre d :
  occurs_at (String c r) (String c pre) d ↔ occurs_at r pre d.
Proof.
  unfold occurs_at. split; intros (post & Heq & ?); exists post;
    (split; [|assumption]).
  - rewrite (append_String c pre) in Heq. congruence.
  - rewrite (append_String c pre). congruence.
Qed.

(** X15. The digits taken from GITHUB_REF are those of the leftmost
    occurrence of refs/pull/<digits>/merge: no occurrence starts before the
    one that is used. *)
Theorem search_finds_leftmost s d :
  Py.search_pull_ref s = Some d →
  ∃ pre, occurs_at s pre d
    ∧ ∀ pre1 d1, occurs_at s pre1 d1 →
        (String.length pre ≤ String.length pre1)%nat.
Proof.
  induction s as [|c r IH]; [discriminate|].
  cbn [Py.search_pull_ref].
  destruct (Py.match_pull_ref (String c r)) as [d'|] eqn:Hm.
  - intros [= ->]. exists "". split; [|simpl; lia].
    apply match_pull_ref_sound in Hm as (post & -> & ? & ?).
    exists post. rewrite append_empty. auto.
  - intros Hs. destruct (IH Hs) as (pre & Hocc & Hleft).
    exists (String c pre). split; [by apply occurs_at_tail|].
    intros pre1 d1 Hocc1. destruct pre1 as [|c1 pre1].
    + apply occurs_at_here in Hocc1. congruence.
    + assert (c1 = c) as ->.
      { destruct Hocc1 as (post & Heq & _).
        rewrite (append_String c1 pre1) in Heq. congruence. }
      apply occurs_at_tail in Hocc1. specialize (Hleft _ _ Hocc1).
      simpl. lia.
Qed.

Lemma search_finds_leftmost_witness :
  ∃ pre, occurs_at "refs/pull/x/merge refs/pull/12/merge refs/pull/3/merge"
           pre "12"
    ∧ ∀ pre1 d1,
        occurs_at "refs/pull/x/merge refs/pull/12/merge refs/pull/3/merge"
          pre1 d1 →
        (String.length pre ≤ String.length pre1)%nat.
Proof.
  apply (search_finds_leftmost
           "refs/pull/x/merge refs/pull/12/merge refs/pull/3/merge" "12").
  reflexivity.
Defined.

(** ** More on forks (lines 101-107) *)

Lemma fork_check_passes i pr :
  head_repo_full_name pr = base_repo_full_name pr
  ∨ github_event_name i = "pull_request_target" →
  fork_check i pr = MkRun [] (Returns tt).
Proof.
  intros H. unfold fork_check.
  destruct (String.eqb_spec (head_repo_full_name pr) (base_repo_full_name pr));
    [reflexivity|].
  destruct H as [H|H]; [congruence|].
  apply String.eqb_eq in H. rewrite H. reflexivity.
Qed.

(** X16. A pull request from the repository itself, under any event, and a
    pull request from a fork under pull_request_target get past the fork
    check without a line printed: the next thing the run does is list the
    labels. *)
Theorem fork_check_lets_through argv environ gh t i t' pr :
  input_resolver argv environ = MkRun t (Returns i) →
  pull_request_locator gh i = MkRun t' (Returns pr) →
  head_repo_full_name pr = base_repo_full_name pr
  ∨ github_event_name i = "pull_request_target" →
  (t ++ t' ++ [ApiGetLabels]) `prefix_of` trace (main argv environ gh).
Proof.
  intros Hin Hloc Hok.
  assert (prologue argv environ gh = MkRun (t ++ t') (Returns (i, pr))) as Hpro.
  { unfold prologue.
    rewrite (bind_Returns _ _ _ _ Hin). cbn beta.
    rewrite (bind_Returns _ _ _ _ Hloc). cbn beta.
    rewrite (fork_check_passes i pr Hok).
    unfold mbind, Run_bind, mret, Run_ret. cbn [trace outcome].
    by rewrite !app_nil_r. }
  unfold main. rewrite (bind_Returns _ _ _ _ Hpro). cbn beta iota.
  unfold label_classifier. rewrite trace_bind. cbn [trace emit].
  rewrite <- !app_assoc. do 2 apply prefix_app. apply prefix_app_r.
  reflexivity.
Qed.

Lemma fork_check_lets_through_witness :
  let argv := sample_argv "a" "b" "7" in
  let environ :=
    actions_env "org/widget" "refs/heads/main" "pull_request_target" in
  let gh := single_pr "org/widget" 7 "fork/widget" "org/widget" ["a"] in
  let i := sample_inputs ["a"] ["b"] "7" "org/widget" "refs/heads/main"
             "pull_request_target" in
  (echoed i ++ number_resolved i 7 ++ [ApiGetLabels])
    `prefix_of` trace (main argv environ gh).
Proof.
  intros argv environ gh i.
  apply (fork_check_lets_through argv environ gh (echoed i) i
           (number_resolved i 7)
           (single_pull "fork/widget" "org/widget" ["a"])).
  - vm_compute. reflexivity.
  - vm_compute. reflexivity.
  - right. reflexivity.
Defined.

(** ** More on the labels found (lines 112-124) *)

Lemma found_in_filter wanted (Q : Label → Prop) `{!∀ l, Decision (Q l)}
    pr_labels :
  (∀ label, name label ∈ wanted → Q label) →
  found_in wanted (filter Q pr_labels) = found_in wanted pr_labels.
Proof.
  intros HQ. unfold found_in.
  induction pr_labels as [|label pr_labels IH]; [reflexivity|].
  rewrite filter_cons. destruct (decide (Q label)) as [Hq|Hq].
  - rewrite !fmap_cons, !filter_cons, IH. reflexivity.
  - rewrite fmap_cons, filter_cons, IH.
    destruct (decide (name label ∈ wanted)) as [Hw|Hw]; [|reflexivity].
    destruct (Hq (HQ _ Hw)).
Qed.

(** X17. Labels of the pull request that are in neither list make no
    difference to the two lists of labels found: the loop of lines 120-124
    gives the same result with them removed. *)
Theorem unlisted_labels_ignored i pr_labels :
  classify i
    (filter (λ label, name label ∈ valid_labels i
                      ∨ name label ∈ invalid_labels i) pr_labels)
  = classify i pr_labels.
Proof.
  rewrite !classify_found. f_equal; apply found_in_filter; tauto.
Qed.

(** X18. The loop of lines 120-124 keeps the order and the repetitions of
    the pull request: each of its two results is the list of label names of
    the pull request with the names outside the list in question removed,
    and a name in both lists is in both results. *)
Theorem classify_keeps_order i pr_labels :
  classify i pr_labels
  = (filter (λ n, n ∈ valid_labels i) (name <$> pr_labels),
     filter (λ n, n ∈ invalid_labels i) (name <$> pr_labels))
  ∧ (classify i pr_labels).1 `sublist_of` (name <$> pr_labels)
  ∧ (classify i pr_labels).2 `sublist_of` (name <$> pr_labels)
  ∧ (∀ label, label ∈ pr_labels → name label ∈ valid_labels i →
       name label ∈ invalid_labels i →
       name label ∈ (classify i pr_labels).1
       ∧ name label ∈ (classify i pr_labels).2).
Proof.
  rewrite classify_found. cbn [fst snd]. unfold found_in.
  split; [reflexivity|]. split; [apply sublist_filter|].
  split; [apply sublist_filter|].
  intros label Hl Hv Hi. rewrite !list_elem_of_filter, !list_elem_of_fmap.
  eauto 10.
Qed.

(** ** The loop of lines 166-170, on its own *)

Lemma targets_repo_spec repo label :
  targets_repo repo label = true ↔ self_referential repo label.
Proof.
  unfold targets_repo, self_referential. split.
  - destruct (last (Py.split label)) as [w|]; [eauto|discriminate].
  - intros (w & -> & Hw). exact Hw.
Qed.

Lemma forbidden_loop_step i label rest forbidden_label w :
  last (Py.split label) = Some w →
  forbidden_loop i (label :: rest) forbidden_label
  = forbidden_loop i rest
      (if targets_repo (repo_name i) label then label else forbidden_label).
Proof.
  intros Hw. cbn [forbidden_loop]. unfold getitem_last, targets_repo.
  rewrite Hw. unfold mbind, Run_bind, mret, Run_ret. cbn [trace outcome app].
  destruct (Py.contains _ _); by destruct (forbidden_loop i rest _).
Qed.

Lemma forbidden_loop_result i todo forbidden_label :
  Forall (λ label, ¬ blank label) todo →
  forbidden_loop i todo forbidden_label
  = MkRun [] (Returns
      (default forbidden_label
         (last (filter (λ label, targets_repo (repo_name i) label = true)
                  todo)))).
Proof.
  intros Hall. revert forbidden_label.
  induction Hall as [|label rest Hlabel _ IH]; intros init; [reflexivity|].
  destruct (proj2 (last_is_Some (Py.split label)) Hlabel) as [w Hw].
  rewrite (forbidden_loop_step i label rest init w Hw), IH, filter_cons.
  destruct (targets_repo (repo_name i) label) eqn:Ht.
  - rewrite decide_True by reflexivity. rewrite last_cons.
    by destruct (last _).
  - rewrite decide_False by discriminate. reflexivity.
Qed.

(** X19. When no label is blank the loop of lines 166-170 ends with the
    last label whose last word, lowercased, occurs in the lowercased
    repository name, and with its initial empty string when there is none;
    the result is the empty string only when there is none, so the test of
    line 172 cannot miss a label. When some label is blank (empty or white
    space only) the loop raises IndexError. *)
Theorem forbidden_loop_outcome i todo :
  (Forall (λ label, ¬ blank label) todo →
     let hits := filter (λ label, targets_repo (repo_name i) label = true)
                   todo in
     forbidden_loop i todo "" = MkRun [] (Returns (default "" (last hits)))
     ∧ (default "" (last hits) = "" ↔ hits = [])
     ∧ (hits = [] ↔ ∀ label, label ∈ todo →
                       ¬ self_referential (repo_name i) label))
  ∧ (Exists blank todo →
     ∀ forbidden_label,
       forbidden_loop i todo forbidden_label = MkRun [] (Raises IndexError)).
Proof.
  split.
  - intros Hall hits. split; [apply forbidden_loop_result, Hall|]. split.
    + split; [|by intros ->].
      destruct (last hits) as [f|] eqn:Hlast; [|by intros _; apply last_None].
      simpl. intros ->.
      apply last_Some_elem_of, list_elem_of_filter in Hlast as [_ Hin].
      rewrite Forall_forall in Hall. destruct (Hall _ Hin). reflexivity.
    + split.
      * intros Hnil label Hin Hself%targets_repo_spec.
        eapply (filter_nil_not_elem_of _ _ label Hnil); eassumption.
      * intros Hnone. destruct hits as [|f l] eqn:Hh; [reflexivity|].
        assert (f ∈ hits) as Hf by (rewrite Hh; apply list_elem_of_here).
        apply list_elem_of_filter in Hf as [Hself%targets_repo_spec Hin].
        destruct (Hnone _ Hin Hself).
  - intros Hex. induction Hex as [label rest Hblank|label rest _ IH];
      intros init.
    + cbn [forbidden_loop]. unfold getitem_last.
      unfold blank in Hblank. rewrite Hblank. reflexivity.
    + destruct (last (Py.split label)) as [w|] eqn:Hw.
      * rewrite (forbidden_loop_step i label rest init w Hw). apply IH.
      * cbn [forbidden_loop]. unfold getitem_last. rewrite Hw. reflexivity.
Qed.

Lemma forbidden_loop_outcome_witness :
  let i := sample_inputs [] [] "" "Org/Widget" "" "" in
  forbidden_loop i ["target WIDGET"; "feature parity"; "for org"] ""
  = MkRun [] (Returns "for org")
  ∧ forbidden_loop i ["target widget"; "  "; "for org"] "x"
    = MkRun [] (Raises IndexError).
Proof.
  intros i.
  destruct (forbidden_loop_outcome i
              ["target WIDGET"; "feature parity"; "for org"]) as [Hok _].
  destruct (forbidden_loop_outcome i ["target widget"; "  "; "for org"])
    as [_ Hblank].
  split.
  - refine (proj1 (Hok _)).
    repeat constructor; unfold blank; vm_compute; discriminate.
  - apply Hblank. apply Exists_cons_tl, Exists_cons_hd. reflexivity.
Defined.
